(** * Deep Research Agent: a shallow embedding of [src/agent.py]

    The program plans research angles with a language model, searches the
    web and fetches pages for every angle, extracts findings per angle and
    synthesises a Markdown report.  The embedding follows the source
    function by function:

    - Python [str] values are sequences of Unicode code points;
    - the in-place update of a plan is a function from the plan before to
      the plan after;
    - the remote collaborators (the three agents, the search provider, the
      HTTP client and the HTML parser) are oracles that answer from the
      history of calls made so far, and every call is recorded in a trace;
    - [try]/[except Exception] is an explicit handler in a small
      exception-and-trace monad.

    An exception is an instance of a subclass of [Exception], which is
    what the handlers of the source catch.  Console output ([print]) and
    the progress callback are not modelled. *)

From Stdlib Require Import String Ascii NArith.
From stdpp Require Import base option list gmap strings.

Set Default Proof Using "Type".
#[local] Set Warnings "-abstract-large-number".

(** ** Python strings *)

Definition codepoint := N.
Definition str := list codepoint.

(** A string literal of the source (all of them are ASCII). *)
Definition lit (s : string) : str := map N_of_ascii (list_ascii_of_string s).

(** The newline character of the f-strings. *)
Definition nl : str := [10%N].

(** What the interpreter supplies: the Unicode lower-casing of the
    non-ASCII character at position [i] of a string [s] (it may expand to
    several code points, and for a capital sigma it depends on the
    neighbours in [s]). *)
Class PyRuntime := {
  unicode_lower : str -> nat -> str
}.

Definition ascii_lower (c : codepoint) : codepoint :=
  if ((65 <=? c) && (c <=? 90))%N then (c + 32)%N else c.

Fixpoint lower_from `{PyRuntime} (s : str) (i : nat) (rest : str) : str :=
  match rest with
  | [] => []
  | c :: rest' =>
      (if (c <? 128)%N then [ascii_lower c] else unicode_lower s i)
        ++ lower_from s (S i) rest'
  end.

(** [s.lower()] *)
Definition lower `{PyRuntime} (s : str) : str := lower_from s 0 s.

Fixpoint startswith (s prefix : str) : bool :=
  match prefix, s with
  | [], _ => true
  | _ :: _, [] => false
  | p :: prefix', c :: s' => (p =? c)%N && startswith s' prefix'
  end.

(** [needle in hay] on strings: [needle] occurs as a contiguous run. *)
Fixpoint contains (needle hay : str) : bool :=
  startswith hay needle ||
  match hay with
  | [] => false
  | _ :: hay' => contains needle hay'
  end.

(** [sep.join(parts)] *)
Fixpoint join (sep : str) (parts : list str) : str :=
  match parts with
  | [] => []
  | [p] => p
  | p :: rest => p ++ sep ++ join sep rest
  end.

(** ** Data models *)

Record ResearchPlan := {
  is_ticker : bool;
  topic : str;
  context : str;
  angles : list str
}.

Record ResearchResult := {
  title : str;
  url : str;
  snippet : str;
  content : option str
}.

Record AngleData := {
  angle : str;
  key_facts : list str;
  claims : list str;
  citations : list str
}.

Record FinalReport := {
  markdown_content : str
}.

(** ** The SWOT post-processing rule *)

Definition keywords : list str :=
  lit <$> ["company"; "stock"; "equity"; "market cap"; "earnings"; "investor"]%string.

(** The value of [needs_swot] when the function reaches its first
    [if not needs_swot]. *)
Definition needs_swot `{PyRuntime} (plan : ResearchPlan) : bool :=
  if is_ticker plan then true
  else
    let combined := lower (topic plan ++ lit " " ++ context plan) in
    existsb (fun k => contains k combined) keywords.

(** ["swot" in angle.lower()] *)
Definition mentions_swot `{PyRuntime} (angle : str) : bool :=
  contains (lit "swot") (lower angle).

Definition with_angles (plan : ResearchPlan) (angles' : list str) : ResearchPlan :=
  {| is_ticker := is_ticker plan; topic := topic plan;
     context := context plan; angles := angles' |}.

(** The function mutates [plan.angles] and returns nothing; the embedding
    returns the plan as it is after the call. *)
Definition ensure_swot_angle_if_applicable `{PyRuntime} (plan : ResearchPlan)
  : ResearchPlan :=
  if negb (needs_swot plan) then plan
  else if negb (existsb mentions_swot (angles plan)) then
    if 4 <=? length (angles plan) then
      with_angles plan (<[length (angles plan) - 1 := lit "SWOT analysis"]> (angles plan))
    else
      with_angles plan (angles plan ++ [lit "SWOT analysis"])
  else plan.

(** A runtime that leaves every non-ASCII character as it is; enough for
    running the definitions on ASCII text. *)
Definition ascii_runtime : PyRuntime :=
  {| unicode_lower := fun s i => match s !! i with Some c => [c] | None => [] end |}.


(** ** Exceptions, the call trace and the monad of the pipeline *)

(** A Python exception (an instance of a subclass of [Exception]): its
    class name and the text [str(e)] that an f-string shows. *)
Inductive exn := Exception (cls : string) (msg : str).

Definition exn_str (e : exn) : str := let 'Exception _ msg := e in msg.

Inductive outcome (A : Type) :=
| Ok (a : A)
| Raise (e : exn).
Arguments Ok {A} a.
Arguments Raise {A} e.

(** One entry per call that leaves the process. *)
Inductive event :=
| EvPlan (user_input : str)
| EvSearch (query : str) (max_results : nat)
| EvFetch (url : str)
| EvExtract (prompt : str)
| EvSynth (prompt : str).

Definition trace := list event.

Definition M (A : Type) : Type := trace -> outcome A * trace.

#[global] Instance M_ret : MRet M := fun A a tr => (Ok a, tr).

#[global] Instance M_bind : MBind M := fun A B f m tr =>
  match m tr with
  | (Ok a, tr') => f a tr'
  | (Raise e, tr') => (Raise e, tr')
  end.

(** A pure step that may raise. *)
Definition lift {A} (o : outcome A) : M A := fun tr => (o, tr).

(** A call to a collaborator: it answers from the calls made so far and
    the call is appended to the trace. *)
Definition call {A} (ev : event) (oracle : trace -> outcome A) : M A :=
  fun tr => (oracle tr, tr ++ [ev]).

(** [try: body except Exception as e: handler e] *)
Definition try_except {A} (body : M A) (handler : exn -> M A) : M A :=
  fun tr =>
    match body tr with
    | (Ok a, tr') => (Ok a, tr')
    | (Raise e, tr') => handler e tr'
    end.

(** [await asyncio.gather] over a list of tasks: the results in the order
    of the tasks.
    The tasks are run one after the other, which is one of the schedules
    of the event loop; the first exception is the one that propagates. *)
Fixpoint gather {A} (tasks : list (M A)) : M (list A) :=
  match tasks with
  | [] => mret []
  | t :: tasks' => a ← t; rest ← gather tasks'; mret (a :: rest)
  end.

(** ** Collaborators *)

(** What an agent's [run] returns, as far as [get_agent_output] looks at
    it: the class name, attribute access (which may raise, or give [None])
    and the instance dictionary of [vars] (which may raise). *)
Record AgentRunResult (A : Type) := {
  type_name : str;
  getattr : string -> outcome (option A);
  vars : outcome (list (string * option A))
}.
Arguments type_name {A} _.
Arguments getattr {A} _ _.
Arguments vars {A} _.

(** A value in a search hit: a string, or something a [str] field of a
    pydantic model rejects (with the text of the validation error). *)
Inductive pyval :=
| PyStr (s : str)
| PyOther (why : str).

(** An HTTP response: the status, the decoded body, and the text of the
    [HTTPStatusError] that [raise_for_status] raises for it. *)
Record Response := {
  status_code : nat;
  text : str;
  status_error : str
}.

Class Services := {
  (** [planning_agent.run(user_input)] *)
  planning_agent_run : trace -> str -> outcome (AgentRunResult ResearchPlan);
  (** [DDGS().text(query, max_results=...)], read into a list *)
  ddgs_text : trace -> str -> nat -> outcome (list (gmap string pyval));
  (** [httpx.AsyncClient(follow_redirects=True, timeout=10.0).get(url)] *)
  client_get : trace -> str -> outcome Response;
  (** [BeautifulSoup(html, 'html.parser')], the removal of the script,
      style, nav, footer and header elements, and
      [get_text(separator=' ', strip=True)] *)
  soup_get_text : str -> outcome str;
  (** [extraction_agent.run(angle_prompt)] *)
  extraction_agent_run : trace -> str -> outcome (AgentRunResult AngleData);
  (** [synthesis_agent.run(report_prompt)] *)
  synthesis_agent_run : trace -> str -> outcome (AgentRunResult FinalReport)
}.

(** ** [get_agent_output] *)

Fixpoint first_attr {A} (run_result : AgentRunResult A) (attrs : list string)
  : option A :=
  match attrs with
  | [] => None
  | attr :: attrs' =>
      match getattr run_result attr with
      | Ok (Some value) => Some value
      | Ok None | Raise _ => first_attr run_result attrs'
      end
  end.

(** [data[key]] for [key in data], [None] (outer) when the key is absent. *)
Fixpoint dict_get {A} (data : list (string * A)) (key : string) : option A :=
  match data with
  | [] => None
  | (k, v) :: data' => if String.eqb k key then Some v else dict_get data' key
  end.

Fixpoint first_key {A} (data : list (string * option A)) (keys : list string)
  : option A :=
  match keys with
  | [] => None
  | key :: keys' =>
      match dict_get data key with
      | Some (Some value) => Some value
      | Some None | None => first_key data keys'
      end
  end.

(** [repr] of a list of attribute names. *)
Definition repr_keys (ks : list string) : str :=
  lit "[" ++ join (lit ", ") ((fun k => lit "'" ++ lit k ++ lit "'") <$> ks) ++ lit "]".

Definition get_agent_output {A} (run_result : AgentRunResult A) : outcome A :=
  match first_attr run_result ["output"; "data"; "result"]%string with
  | Some value => Ok value
  | None =>
      let data := match vars run_result with Ok d => d | Raise _ => [] end in
      match first_key data
              ["output"; "data"; "_output"; "_data"; "result"; "_result"]%string with
      | Some value => Ok value
      | None =>
          Raise (Exception "AttributeError"
                   (lit "Unsupported AgentRunResult shape: " ++ type_name run_result
                      ++ lit "; available keys=" ++ repr_keys (data.*1)))
      end
  end.

(** ** Tools *)

(** [r.get(key, '')] *)
Definition hit_get (r : gmap string pyval) (key : string) : pyval :=
  default (PyStr []) (r !! key).

(** Validation of a [str] field. *)
Definition validate_str (v : pyval) : outcome str :=
  match v with
  | PyStr s => Ok s
  | PyOther why => Raise (Exception "ValidationError" why)
  end.

(** [ResearchResult(title=..., url=..., snippet=...)]; [content] takes its
    default [None]. *)
Definition new_ResearchResult (t u s : pyval) : outcome ResearchResult :=
  match validate_str t, validate_str u, validate_str s with
  | Ok t', Ok u', Ok s' =>
      Ok {| title := t'; url := u'; snippet := s'; content := None |}
  | Raise e, _, _ | _, Raise e, _ | _, _, Raise e => Raise e
  end.

(** The loop that fills [results]: it stops at the first hit that does not
    validate, and what was appended before stays in [results]. *)
Fixpoint append_hits (search_results : list (gmap string pyval))
    (results : list ResearchResult) : list ResearchResult :=
  match search_results with
  | [] => results
  | r :: rest =>
      match new_ResearchResult (hit_get r "title") (hit_get r "href")
              (hit_get r "body") with
      | Ok res => append_hits rest (results ++ [res])
      | Raise _ => results
      end
  end.

Definition search_duckduckgo `{Services} (query : str) (max_results : nat)
  : M (list ResearchResult) :=
  let results := [] in
  try_except
    (search_results ← call (EvSearch query max_results)
                        (fun tr => ddgs_text tr query max_results);
     mret (append_hits search_results results))
    (fun e => mret results).

(** [response.raise_for_status()]: httpx raises for every status that is
    not a success (2xx). *)
Definition raise_for_status (response : Response) : outcome unit :=
  if (200 <=? status_code response) && (status_code response <=? 299)
  then Ok ()
  else Raise (Exception "HTTPStatusError" (status_error response)).

Definition fetch_page_content `{Services} (url : str) : M (option str) :=
  try_except
    (response ← call (EvFetch url) (fun tr => client_get tr url);
     _ ← lift (raise_for_status response);
     page_text ← lift (soup_get_text (text response));
     mret (Some (take 10000 page_text)))
    (fun e => mret None).

(** ** Orchestration *)

(** The first half of [process_angle]: the query, the search, the fetch of
    the top pages and the loop that attaches the fetched text. *)

(** [if content:] holds for a string that is neither [None] nor empty. *)
Definition truthy (content : option str) : bool :=
  match content with
  | Some (_ :: _) => true
  | Some [] | None => false
  end.

Definition set_content (c : str) (r : ResearchResult) : ResearchResult :=
  {| title := title r; url := url r; snippet := snippet r; content := Some c |}.

(** [for i, content in enumerate(contents): if content: results[i].content = content],
    from position [i] on.  [contents] comes from a prefix of [results], so
    [results[i]] is always in range. *)
Fixpoint attach_contents (i : nat) (contents : list (option str))
    (results : list ResearchResult) : list ResearchResult :=
  match contents with
  | [] => results
  | c :: contents' =>
      attach_contents (S i) contents'
        (match c with
         | Some (ch :: cs) => alter (set_content (ch :: cs)) i results
         | Some [] | None => results
         end)
  end.

Definition research_angle `{Services} (plan : ResearchPlan) (angle : str)
  : M (list ResearchResult) :=
  let query := topic plan ++ lit " " ++ angle in
  results ← search_duckduckgo query 5;
  contents ← gather ((fun r => fetch_page_content (url r)) <$> take 2 results);
  mret (attach_contents 0 contents results).

(** The second half: the prompt for the extraction agent. *)
Definition result_entry (r : ResearchResult) : str :=
  lit "- Title: " ++ title r ++ nl ++ lit "  URL: " ++ url r ++ nl
    ++ lit "  Snippet: " ++ snippet r ++ nl
    ++ (match content r with
        | Some (ch :: cs) =>
            lit "  Content: " ++ take 2000 (ch :: cs) ++ lit "..." ++ nl
        | Some [] | None => []
        end)
    ++ nl.

Definition angle_prompt (plan : ResearchPlan) (angle : str)
    (results : list ResearchResult) : str :=
  lit "Topic: " ++ topic plan ++ nl ++ lit "Angle: " ++ angle ++ nl ++ nl
    ++ lit "Search Results:" ++ nl
    ++ concat (result_entry <$> results).

(** The fallback of a failed extraction. *)
Definition empty_angle_data (angle : str) : AngleData :=
  {| angle := angle; key_facts := []; claims := []; citations := [] |}.

(** The body of the [try] around the extraction. *)
Definition extract `{Services} (prompt : str) : M AngleData :=
  extraction_run ← call (EvExtract prompt) (fun tr => extraction_agent_run tr prompt);
  lift (get_agent_output extraction_run).

Definition process_angle `{Services} (plan : ResearchPlan) (angle : str)
  : M AngleData :=
  results ← research_angle plan angle;
  try_except
    (extract (angle_prompt plan angle results))
    (fun e => mret (empty_angle_data angle)).

(** The body of the [try] of step 1. *)
Definition make_plan `{PyRuntime} `{Services} (user_input : str) : M ResearchPlan :=
  plan_run ← call (EvPlan user_input) (fun tr => planning_agent_run tr user_input);
  plan ← lift (get_agent_output plan_run);
  mret (ensure_swot_angle_if_applicable plan).

Definition bullets (items : list str) : str :=
  join nl ((fun f => lit "- " ++ f) <$> items).

Definition data_entry (data : AngleData) : str :=
  nl ++ lit "Angle: " ++ angle data ++ nl
    ++ lit "Facts:" ++ nl ++ bullets (key_facts data) ++ nl
    ++ lit "Claims:" ++ nl ++ bullets (claims data) ++ nl
    ++ lit "Citations:" ++ nl ++ bullets (citations data) ++ nl.

Definition report_prompt (plan : ResearchPlan) (angle_data_list : list AngleData)
  : str :=
  lit "Topic: " ++ topic plan ++ nl ++ lit "Context: " ++ context plan ++ nl ++ nl
    ++ lit "Collected Data:" ++ nl
    ++ concat (data_entry <$> angle_data_list).

(** The body of the [try] of step 3. *)
Definition synthesize `{Services} (prompt : str) : M str :=
  report_run ← call (EvSynth prompt) (fun tr => synthesis_agent_run tr prompt);
  final_report_obj ← lift (get_agent_output report_run);
  mret (markdown_content final_report_obj).

(** After a planning failure the function returns at once; this is the
    rest of the function for a plan that was made. *)
Definition research_and_report `{Services} (plan : ResearchPlan) : M str :=
  angle_data_list ← gather (process_angle plan <$> angles plan);
  try_except
    (synthesize (report_prompt plan angle_data_list))
    (fun e => mret (lit "Error synthesizing report: " ++ exn_str e)).

Definition deep_research `{PyRuntime} `{Services} (user_input : str) : M str :=
  fun tr =>
    match make_plan user_input tr with
    | (Raise e, tr') => (Ok (lit "Error generating plan: " ++ exn_str e), tr')
    | (Ok plan, tr') => research_and_report plan tr'
    end.

(** [chat] of the Gradio interface. *)
Definition chat `{PyRuntime} `{Services} (message : str) : M str :=
  deep_research message.

(** ** Sample data *)

(** How many angles of a list mention SWOT. *)
Definition swot_count `{PyRuntime} (angles : list str) : nat :=
  length (List.filter mentions_swot angles).

(** A ticker plan of three angles, two of which already mention SWOT. *)
Definition two_swot_plan : ResearchPlan :=
  {| is_ticker := true;
     topic := lit "Tesla";
     context := lit "Electric vehicles";
     angles := [lit "SWOT analysis"; lit "Competitor SWOT comparison";
                lit "Recent earnings"] |}.

(** A plan about a company (not a ticker) with four angles, none on SWOT. *)
Definition four_angle_plan : ResearchPlan :=
  {| is_ticker := false;
     topic := lit "Volkswagen";
     context := lit "German car company";
     angles := [lit "recent performance"; lit "market positioning";
                lit "guidance"; lit "electrification"] |}.

(** A general query that triggers nothing. *)
Definition quantum_plan : ResearchPlan :=
  {| is_ticker := false;
     topic := lit "Future of quantum computing";
     context := lit "Physics and computer science";
     angles := [lit "hardware"; lit "algorithms"; lit "error correction"] |}.

(** A ticker plan that came back with five angles. *)
Definition five_angle_plan : ResearchPlan :=
  {| is_ticker := true;
     topic := lit "Tesla";
     context := lit "Electric vehicles";
     angles := [lit "recent performance"; lit "market positioning";
                lit "guidance"; lit "electrification"; lit "robotaxi"] |}.

(** * Properties of the SWOT rule *)

Section Swot.
Context `{!PyRuntime}.

Lemma mentions_swot_literal : mentions_swot (lit "SWOT analysis") = true.
Proof. reflexivity. Qed.

Lemma needs_swot_with_angles plan angles' :
  needs_swot (with_angles plan angles') = needs_swot plan.
Proof. reflexivity. Qed.

Lemma swot_count_app l1 l2 :
  swot_count (l1 ++ l2) = swot_count l1 + swot_count l2.
Proof. unfold swot_count. by rewrite List.filter_app, length_app. Qed.

Lemma swot_count_none l :
  existsb mentions_swot l = false -> swot_count l = 0.
Proof.
  unfold swot_count. induction l as [|a l IH]; simpl; [done|].
  intros [Ha Hl]%orb_false_iff. rewrite Ha. auto.
Qed.

Lemma swot_count_some l :
  existsb mentions_swot l = true -> 1 <= swot_count l.
Proof.
  unfold swot_count. induction l as [|a l IH]; simpl; [done|].
  destruct (mentions_swot a); simpl; [lia | auto].
Qed.

(** Writing to index [-1] of a non-empty list replaces its last element. *)
Lemma set_last (l : list str) (x : str) :
  l <> [] -> <[length l - 1 := x]> l = take (length l - 1) l ++ [x].
Proof.
  induction l as [|a l IH] using rev_ind; [done|]. intros _.
  rewrite length_app. simpl.
  replace (length l + 1 - 1) with (length l + 0) by lia.
  rewrite insert_app_r. simpl.
  by rewrite Nat.add_0_r, take_app_length.
Qed.

Lemma existsb_take (f : str -> bool) n (l : list str) :
  existsb f l = false -> existsb f (take n l) = false.
Proof.
  revert n. induction l as [|a l IH]; intros [|n]; simpl; try done.
  intros [Ha Hl]%orb_false_iff. rewrite Ha. simpl. auto.
Qed.

(** What the rule does to the angle list, case by case. *)
Lemma ensure_swot_angles plan :
  angles (ensure_swot_angle_if_applicable plan) =
    if needs_swot plan && negb (existsb mentions_swot (angles plan)) then
      if 4 <=? length (angles plan)
      then take (length (angles plan) - 1) (angles plan) ++ [lit "SWOT analysis"]
      else angles plan ++ [lit "SWOT analysis"]
    else angles plan.
Proof.
  unfold ensure_swot_angle_if_applicable.
  destruct (needs_swot plan); [|done].
  destruct (existsb mentions_swot (angles plan)); [done|].
  destruct (4 <=? length (angles plan)) eqn:Hlen; [|done].
  cbn [negb andb angles with_angles].
  apply set_last. intros Hnil. rewrite Hnil in Hlen. discriminate Hlen.
Qed.

(** C1 (amended).  For a plan that triggers the rule (ticker flag, or a
    financial keyword in the lower-cased topic and context), the plan
    after the rule has at least one angle that mentions SWOT; it has
    exactly one when the plan came in with at most one; and a plan that
    came in with 3 or 4 angles leaves with 3 or 4 angles. *)
Theorem ensure_swot_adds_swot_angle plan :
  needs_swot plan = true ->
  let plan' := ensure_swot_angle_if_applicable plan in
  1 <= swot_count (angles plan') /\
  (swot_count (angles plan) <= 1 -> swot_count (angles plan') = 1) /\
  (3 <= length (angles plan) <= 4 -> 3 <= length (angles plan') <= 4).
Proof.
  intros Hneeds plan'. subst plan'.
  rewrite ensure_swot_angles, Hneeds. cbn [andb].
  destruct (existsb mentions_swot (angles plan)) eqn:Hany; cbn [negb].
  - pose proof (swot_count_some _ Hany). repeat split; lia.
  - assert (Hnew : swot_count [lit "SWOT analysis"] = 1) by reflexivity.
    destruct (4 <=? length (angles plan)) eqn:Hlen.
    + apply Nat.leb_le in Hlen.
      rewrite swot_count_app, Hnew, length_app, length_take.
      rewrite (swot_count_none (take _ _)) by by apply existsb_take.
      simpl. repeat split; lia.
    + apply Nat.leb_gt in Hlen.
      rewrite swot_count_app, Hnew, length_app, (swot_count_none _ Hany).
      simpl. repeat split; lia.
Qed.

(** C2.  A plan that triggers the rule, has exactly 4 angles and no angle
    that mentions SWOT gets its last angle replaced by "SWOT analysis":
    4 angles remain, the first three are the ones that came in, and
    nothing is appended. *)
Theorem ensure_swot_replaces_last_of_four plan :
  needs_swot plan = true ->
  length (angles plan) = 4 ->
  existsb mentions_swot (angles plan) = false ->
  let plan' := ensure_swot_angle_if_applicable plan in
  angles plan' = take 3 (angles plan) ++ [lit "SWOT analysis"] /\
  length (angles plan') = 4 /\
  (forall i, i < 3 -> angles plan' !! i = angles plan !! i) /\
  angles plan' !! 3 = Some (lit "SWOT analysis") /\
  angles plan' !! 4 = None.
Proof.
  intros Hneeds Hlen Hnone plan'. subst plan'.
  rewrite ensure_swot_angles, Hneeds, Hnone, Hlen. cbn [andb negb Nat.leb Nat.sub].
  destruct (angles plan) as [|a0 [|a1 [|a2 [|a3 [|a4 rest]]]]]; try discriminate Hlen.
  repeat split.
  intros [|[|[|i]]] Hi; try reflexivity. lia.
Qed.

(** C9.  The rule is idempotent: a second application changes nothing. *)
Theorem ensure_swot_idempotent plan :
  ensure_swot_angle_if_applicable (ensure_swot_angle_if_applicable plan)
  = ensure_swot_angle_if_applicable plan.
Proof.
  remember (ensure_swot_angle_if_applicable plan) as plan' eqn:Hplan'.
  unfold ensure_swot_angle_if_applicable in Hplan'.
  destruct (needs_swot plan) eqn:Hneeds; cbn [negb] in Hplan'.
  2: { subst plan'. unfold ensure_swot_angle_if_applicable. by rewrite Hneeds. }
  destruct (existsb mentions_swot (angles plan)) eqn:Hany; cbn [negb] in Hplan'.
  1: { subst plan'. unfold ensure_swot_angle_if_applicable. by rewrite Hneeds, Hany. }
  assert (Hfix : forall angles',
    existsb mentions_swot angles' = true ->
    ensure_swot_angle_if_applicable (with_angles plan angles')
    = with_angles plan angles').
  { intros angles' Hsw. unfold ensure_swot_angle_if_applicable.
    rewrite needs_swot_with_angles, Hneeds. cbn [negb angles with_angles].
    by rewrite Hsw. }
  destruct (4 <=? length (angles plan)) eqn:Hlen; subst plan'; apply Hfix.
  - rewrite set_last by (intros Hnil; rewrite Hnil in Hlen; discriminate Hlen).
    rewrite existsb_app. cbn [existsb]. rewrite mentions_swot_literal.
    by rewrite orb_true_r.
  - rewrite existsb_app. cbn [existsb]. rewrite mentions_swot_literal.
    by rewrite orb_true_r.
Qed.

(** C10.  The rule never touches [is_ticker], [topic] or [context]; and
    when the ticker flag is false and no financial keyword occurs in the
    lower-cased topic and context, the angle list (the whole plan) is
    left as it was. *)
Theorem ensure_swot_frame plan :
  let plan' := ensure_swot_angle_if_applicable plan in
  is_ticker plan' = is_ticker plan /\
  topic plan' = topic plan /\
  context plan' = context plan /\
  (needs_swot plan = false -> angles plan' = angles plan /\ plan' = plan).
Proof.
  unfold ensure_swot_angle_if_applicable.
  destruct (needs_swot plan); cbn [negb]; [|done].
  destruct (existsb mentions_swot (angles plan)); cbn [negb]; [done|].
  destruct (4 <=? length (angles plan)); done.
Qed.

End Swot.

(** ** Sample collaborators *)

(** A run result that carries its value in the [output] attribute. *)
Definition run_result_of {A} (value : A) : AgentRunResult A :=
  {| type_name := lit "AgentRunResult";
     getattr := fun attr =>
       if String.eqb attr "output" then Ok (Some value)
       else Raise (Exception "AttributeError" (lit "no such attribute"));
     vars := Ok [("_output"%string, Some value)] |}.

Definition sample_hit (t u s : string) : gmap string pyval :=
  {[ "title"%string := PyStr (lit t); "href"%string := PyStr (lit u);
     "body"%string := PyStr (lit s) ]}.

Definition sample_hits : list (gmap string pyval) :=
  [ sample_hit "Annual report" "https://example.com/report" "Results of the year";
    sample_hit "Old page" "https://example.com/gone" "No longer there";
    sample_hit "Forum" "https://example.com/forum" "What people say";
    sample_hit "News" "https://example.com/news" "Latest news" ].

(** A world in which every collaborator answers, except that
    - the planner, the search provider and the synthesiser fail when the
      corresponding flag is [false];
    - the page [.../gone] is a 404 and every page other than [.../report]
      times out;
    - the extraction of the angle "guidance" fails. *)
Definition sample_services (planner_up search_up synthesiser_up : bool) : Services :=
  {| planning_agent_run := fun _ _ =>
       if planner_up then Ok (run_result_of four_angle_plan)
       else Raise (Exception "ModelHTTPError" (lit "status_code: 429"));
     ddgs_text := fun _ _ _ =>
       if search_up then Ok sample_hits
       else Raise (Exception "RatelimitException" (lit "202 Ratelimit"));
     client_get := fun _ u =>
       if bool_decide (u = lit "https://example.com/report") then
         Ok {| status_code := 200; text := lit "Revenue grew by 12%";
               status_error := [] |}
       else if bool_decide (u = lit "https://example.com/gone") then
         Ok {| status_code := 404; text := lit "Not Found";
               status_error := lit "Client error '404 Not Found'" |}
       else Raise (Exception "ConnectTimeout" (lit "timed out"));
     soup_get_text := fun html => Ok html;
     extraction_agent_run := fun _ prompt =>
       if contains (lit "Angle: guidance") prompt then
         Raise (Exception "UnexpectedModelBehavior" (lit "exceeded retries"))
       else
         Ok (run_result_of {| angle := lit "findings";
                              key_facts := [lit "Revenue grew by 12%"];
                              claims := [lit "Growth will continue"];
                              citations := [lit "https://example.com/report"] |});
     synthesis_agent_run := fun _ _ =>
       if synthesiser_up then
         Ok (run_result_of {| markdown_content := lit "# Executive Summary" |})
       else Raise (Exception "ModelHTTPError" (lit "status_code: 500")) |}.


Definition all_up : Services := sample_services true true true.
Definition planner_down : Services := sample_services false true true.
Definition search_down : Services := sample_services true false true.
Definition synthesiser_down : Services := sample_services true true false.

(** * Properties of the pipeline *)

Section Pipeline.
Context `{!PyRuntime, !Services}.

(** ** Tools *)

Lemma search_duckduckgo_run query max_results tr :
  search_duckduckgo query max_results tr =
    (Ok (match ddgs_text tr query max_results with
         | Ok search_results => append_hits search_results []
         | Raise _ => []
         end),
     tr ++ [EvSearch query max_results]).
Proof.
  unfold search_duckduckgo, try_except, mbind, M_bind, call, mret, M_ret.
  by destruct (ddgs_text tr query max_results).
Qed.

Lemma new_ResearchResult_content t u s res :
  new_ResearchResult t u s = Ok res -> content res = None.
Proof.
  unfold new_ResearchResult.
  destruct t, u, s; simpl; intros Hnew; inversion Hnew; done.
Qed.

Lemma append_hits_no_content search_results results :
  Forall (fun r => content r = None) results ->
  Forall (fun r => content r = None) (append_hits search_results results).
Proof.
  revert results. induction search_results as [|r rest IH]; intros results Hres;
    simpl; [done|].
  destruct (new_ResearchResult _ _ _) as [res|e] eqn:Hnew; [|done].
  apply IH, Forall_app. split; [done|]. constructor; [|done].
  by apply new_ResearchResult_content in Hnew.
Qed.

(** Whatever the search returns carries no page content yet. *)
Lemma search_duckduckgo_no_content query max_results tr results tr' :
  search_duckduckgo query max_results tr = (Ok results, tr') ->
  Forall (fun r => content r = None) results.
Proof.
  rewrite search_duckduckgo_run. intros [= <- _].
  destruct (ddgs_text tr query max_results); [|constructor].
  apply append_hits_no_content. constructor.
Qed.

(** The ways in which the body of [fetch_page_content] fails: the client
    raises (time-out, connection or protocol error, ...), the status is
    not a 2xx, or the parser raises. *)
Inductive fetch_fails (url : str) (tr : trace) : Prop :=
| client_raises e :
    client_get tr url = Raise e -> fetch_fails url tr
| status_not_2xx response :
    client_get tr url = Ok response ->
    ~ (200 <= status_code response <= 299) ->
    fetch_fails url tr
| parser_raises response e :
    client_get tr url = Ok response ->
    soup_get_text (text response) = Raise e ->
    fetch_fails url tr.

Lemma raise_for_status_ok response :
  200 <= status_code response <= 299 -> raise_for_status response = Ok ().
Proof.
  intros [Hlo Hhi]. unfold raise_for_status.
  apply Nat.leb_le in Hlo, Hhi. by rewrite Hlo, Hhi.
Qed.

Lemma raise_for_status_error response :
  ~ (200 <= status_code response <= 299) ->
  raise_for_status response
  = Raise (Exception "HTTPStatusError" (status_error response)).
Proof.
  intros Hbad. unfold raise_for_status.
  destruct (200 <=? status_code response) eqn:Hlo;
    destruct (status_code response <=? 299) eqn:Hhi; try done.
  apply Nat.leb_le in Hlo, Hhi. lia.
Qed.

(** [fetch_page_content] always returns, and makes exactly one call. *)
Lemma fetch_page_content_returns url tr :
  exists c, fetch_page_content url tr = (Ok c, tr ++ [EvFetch url]).
Proof.
  unfold fetch_page_content, try_except, mbind, M_bind, call, lift, mret, M_ret.
  destruct (client_get tr url) as [response|e]; [|by eexists].
  destruct (raise_for_status response); [|by eexists].
  destruct (soup_get_text (text response)); by eexists.
Qed.

(** C5.  When the search provider raises, [search_duckduckgo] returns
    the empty list; the exception does not propagate. *)
Theorem search_provider_failure query max_results tr e :
  ddgs_text tr query max_results = Raise e ->
  search_duckduckgo query max_results tr
  = (Ok [], tr ++ [EvSearch query max_results]).
Proof. intros Hraise. by rewrite search_duckduckgo_run, Hraise. Qed.

(** C6.  When the fetch fails in any way (the client raises, the status
    is not a 2xx, the parser raises), [fetch_page_content] returns
    [None]; the exception does not propagate. *)
Theorem fetch_failure_gives_none url tr :
  fetch_fails url tr ->
  fetch_page_content url tr = (Ok None, tr ++ [EvFetch url]).
Proof.
  unfold fetch_page_content, try_except, mbind, M_bind, call, lift, mret, M_ret.
  intros [e He | response Hget Hbad | response e Hget Hparse].
  - by rewrite He.
  - by rewrite Hget, (raise_for_status_error _ Hbad).
  - rewrite Hget, Hparse. by destruct (raise_for_status response).
Qed.

(** The converse: [None] comes back only from a failed fetch. *)
Lemma fetch_none_only_on_failure url tr tr' :
  fetch_page_content url tr = (Ok None, tr') -> fetch_fails url tr.
Proof.
  unfold fetch_page_content, try_except, mbind, M_bind, call, lift, mret, M_ret.
  destruct (client_get tr url) as [response|e] eqn:Hget;
    [|intros _; by eapply client_raises].
  destruct (raise_for_status response) eqn:Hstatus.
  - destruct (soup_get_text (text response)) eqn:Hparse; [done|].
    intros _. by eapply parser_raises.
  - intros _. eapply status_not_2xx; [done|].
    intros Hok. by rewrite (raise_for_status_ok _ Hok) in Hstatus.
Qed.

(** C7.  When [fetch_page_content] succeeds, what it returns is the
    cleaned text of the page cut to its first 10000 characters; it is
    at most 10000 characters long. *)
Theorem fetch_content_truncated url tr t tr' :
  fetch_page_content url tr = (Ok (Some t), tr') ->
  length t <= 10000 /\
  exists response page_text,
    client_get tr url = Ok response /\
    soup_get_text (text response) = Ok page_text /\
    t = take 10000 page_text.
Proof.
  unfold fetch_page_content, try_except, mbind, M_bind, call, lift, mret, M_ret.
  destruct (client_get tr url) as [response|e] eqn:Hget; [|done].
  destruct (raise_for_status response); [|done].
  destruct (soup_get_text (text response)) as [page_text|e] eqn:Hparse; [|done].
  intros [= <- _]. split; [|by eauto].
  rewrite length_take. apply Nat.le_min_l.
Qed.

(** ** Fan-out and fan-in *)

Lemma gather_cons {A} (t : M A) (tasks : list (M A)) tr :
  gather (t :: tasks) tr =
    match t tr with
    | (Ok a, tr1) =>
        match gather tasks tr1 with
        | (Ok rest, tr2) => (Ok (a :: rest), tr2)
        | (Raise e, tr2) => (Raise e, tr2)
        end
    | (Raise e, tr1) => (Raise e, tr1)
    end.
Proof. reflexivity. Qed.

(** Tasks that always return are all run, in order; entry [j] of the
    result is what task [j] returned in the state left by the tasks
    before it. *)
Lemma gather_returns {A B} (f : A -> M B) (l : list A) tr :
  (forall a tr, exists b tr', f a tr = (Ok b, tr')) ->
  exists bs tr',
    gather (f <$> l) tr = (Ok bs, tr') /\
    length bs = length l /\
    forall j a, l !! j = Some a ->
      exists b, bs !! j = Some b /\
                (f a (gather (f <$> take j l) tr).2).1 = Ok b.
Proof.
  intros Hf. revert tr. induction l as [|a0 l IH]; intros tr.
  - exists [], tr. repeat split. intros j a Hj. done.
  - destruct (Hf a0 tr) as (b0 & tr1 & Hb0).
    destruct (IH tr1) as (bs & tr' & Hbs & Hlen & Hnth).
    exists (b0 :: bs), tr'.
    split; [by rewrite fmap_cons, gather_cons, Hb0, Hbs|].
    split; [simpl; by rewrite Hlen|].
    intros [|j] a Hj; simpl in Hj.
    + injection Hj as <-. exists b0. simpl. by rewrite Hb0.
    + destruct (Hnth j a Hj) as (b & Hb & Hrun). exists b. split; [done|].
      rewrite firstn_cons, fmap_cons, gather_cons, Hb0.
      by destruct (gather (f <$> take j l) tr1) as [[rest|e] tr2].
Qed.

(** The fetches of a list of results: one call per result, in order. *)
Lemma gather_fetches (rs : list ResearchResult) tr :
  exists cs,
    gather ((fun r => fetch_page_content (url r)) <$> rs) tr
    = (Ok cs, tr ++ (EvFetch ∘ url <$> rs)) /\
    length cs = length rs /\
    forall j r, rs !! j = Some r ->
      exists c, cs !! j = Some c /\
        (fetch_page_content (url r) (tr ++ (EvFetch ∘ url <$> take j rs))).1 = Ok c.
Proof.
  revert tr. induction rs as [|r0 rs IH]; intros tr.
  - exists []. simpl. rewrite app_nil_r. repeat split. intros j r Hj. done.
  - destruct (fetch_page_content_returns (url r0) tr) as (c0 & Hc0).
    destruct (IH (tr ++ [EvFetch (url r0)])) as (cs & Hcs & Hlen & Hnth).
    exists (c0 :: cs).
    split; [by rewrite !fmap_cons, gather_cons, Hc0, Hcs, <- app_assoc|].
    split; [simpl; by rewrite Hlen|].
    intros [|j] r Hj; simpl in Hj.
    + injection Hj as <-. exists c0. simpl. by rewrite app_nil_r, Hc0.
    + destruct (Hnth j r Hj) as (c & Hc & Hrun). exists c. split; [done|].
      rewrite firstn_cons, fmap_cons. by rewrite <- app_assoc in Hrun.
Qed.

(** What the attach loop leaves at position [j]. *)
Definition attached (c : option str) (r : ResearchResult) : ResearchResult :=
  match c with
  | Some (ch :: cs) => set_content (ch :: cs) r
  | Some [] | None => r
  end.

Lemma attach_contents_lookup contents i results j :
  attach_contents i contents results !! j =
    match (if decide (i <= j) then contents !! (j - i) else None) with
    | Some c => attached c <$> results !! j
    | None => results !! j
    end.
Proof.
  revert i results. induction contents as [|c contents IH]; intros i results.
  - simpl. by destruct (decide (i <= j)).
  - simpl. rewrite IH.
    assert (Hstep : forall j',
      match c with
      | Some (ch :: cs) => alter (set_content (ch :: cs)) i results
      | Some [] | None => results
      end !! j'
      = if decide (i = j') then attached c <$> results !! j' else results !! j').
    { intros j'. destruct c as [[|ch cs]|]; simpl.
      - destruct (decide (i = j')); [|done]. by destruct (results !! j').
      - destruct (decide (i = j')) as [->|Hne].
        + apply list_lookup_alter_eq.
        + by apply list_lookup_alter_ne.
      - destruct (decide (i = j')); [|done]. by destruct (results !! j'). }
    rewrite Hstep.
    destruct (decide (S i <= j)), (decide (i = j)), (decide (i <= j)); try lia.
    + by replace (j - i) with (S (j - S i)) by lia.
    + subst j. by rewrite Nat.sub_diag.
    + done.
Qed.

Lemma attach_contents_length contents i results :
  length (attach_contents i contents results) = length results.
Proof.
  revert i results. induction contents as [|c contents IH]; intros i results;
    simpl; [done|].
  rewrite IH. destruct c as [[|ch cs]|]; try done. apply length_alter.
Qed.

(** ** One angle *)

(** The first half of [process_angle], step by step: one search, then one
    fetch for each of the first two results, then the attach loop. *)
Lemma research_angle_run plan angle tr :
  exists found results,
    let tr1 := tr ++ [EvSearch (topic plan ++ lit " " ++ angle) 5] in
    search_duckduckgo (topic plan ++ lit " " ++ angle) 5 tr = (Ok found, tr1) /\
    research_angle plan angle tr
    = (Ok results, tr1 ++ (EvFetch ∘ url <$> take 2 found)) /\
    length results = length found /\
    (forall i r, found !! i = Some r -> 2 <= i ->
       results !! i = Some r /\ content r = None) /\
    (forall i r, found !! i = Some r -> i < 2 ->
       exists c,
         (fetch_page_content (url r)
            (tr1 ++ (EvFetch ∘ url <$> take i found))).1 = Ok c /\
         results !! i = Some (attached c r) /\
         (c = None -> results !! i = Some r)).
Proof.
  set (query := topic plan ++ lit " " ++ angle).
  destruct (search_duckduckgo query 5 tr) as [found_o tr1] eqn:Hsearch.
  pose proof Hsearch as Hrun. rewrite search_duckduckgo_run in Hrun.
  injection Hrun as Hfound Htr1. subst tr1.
  set (found := match ddgs_text tr query 5 with
                | Ok search_results => append_hits search_results []
                | Raise _ => []
                end) in *.
  subst found_o.
  destruct (gather_fetches (take 2 found) (tr ++ [EvSearch query 5]))
    as (cs & Hcs & Hlen & Hnth).
  exists found, (attach_contents 0 cs found). cbn zeta.
  split; [done|]. split.
  { unfold research_angle. fold query. unfold mbind, M_bind at 1.
    rewrite Hsearch. unfold mbind, M_bind. by rewrite Hcs. }
  split; [apply attach_contents_length|].
  rewrite length_take in Hlen. split.
  - intros i r Hi Hge. rewrite attach_contents_lookup, decide_True by lia.
    rewrite (lookup_ge_None_2 cs) by lia. split; [done|].
    pose proof (search_duckduckgo_no_content _ _ _ _ _ Hsearch) as Hnone.
    by eapply Forall_lookup_1 in Hnone.
  - intros i r Hi Hlt.
    destruct (Hnth i r) as (c & Hc & Hfetch).
    { by rewrite lookup_take_lt. }
    exists c. rewrite take_take, Nat.min_l in Hfetch by lia.
    split; [done|].
    rewrite attach_contents_lookup, decide_True, Nat.sub_0_r, Hc, Hi by lia.
    split; [done|]. by intros ->.
Qed.

(** [process_angle] never raises. *)
Lemma process_angle_returns plan angle tr :
  exists data tr', process_angle plan angle tr = (Ok data, tr').
Proof.
  destruct (research_angle_run plan angle tr)
    as (found & results & _ & Hrun & _).
  unfold process_angle, mbind, M_bind. rewrite Hrun. unfold try_except.
  destruct (extract _ _) as [[data|e] tr']; by eauto.
Qed.

(** C8.  [process_angle] fetches page content for the first two search
    results only and attaches what it fetched to those very results:
    a result at index 2 or beyond is passed on as found, with [content]
    still [None], and a fetch that returns [None] (or an empty text)
    leaves its result as found. *)
Theorem process_angle_fetches_top_two plan angle tr :
  exists found results,
    let tr1 := tr ++ [EvSearch (topic plan ++ lit " " ++ angle) 5] in
    let tr2 := tr1 ++ (EvFetch ∘ url <$> take 2 found) in
    search_duckduckgo (topic plan ++ lit " " ++ angle) 5 tr = (Ok found, tr1) /\
    process_angle plan angle tr
    = try_except (extract (angle_prompt plan angle results))
        (fun e => mret (empty_angle_data angle)) tr2 /\
    length results = length found /\
    (forall i r, found !! i = Some r -> 2 <= i ->
       results !! i = Some r /\ content r = None) /\
    (forall i r, found !! i = Some r -> i < 2 ->
       exists c,
         (fetch_page_content (url r)
            (tr1 ++ (EvFetch ∘ url <$> take i found))).1 = Ok c /\
         results !! i = Some (attached c r) /\
         (c = None -> results !! i = Some r)).
Proof.
  destruct (research_angle_run plan angle tr)
    as (found & results & Hsearch & Hrun & Hlen & Hrest & Htop).
  exists found, results. cbn zeta in *.
  split; [done|]. split; [|done].
  unfold process_angle, mbind, M_bind at 1. by rewrite Hrun.
Qed.

(** ** The whole run *)

(** The trace at the moment the task of the [k]-th angle starts: the
    tasks of the angles before it have run. *)
Definition started_at (plan : ResearchPlan) (k : nat) (tr : trace) : trace :=
  (gather (process_angle plan <$> take k (angles plan)) tr).2.

(** The extraction of an angle fails: the search and the fetches are
    done, and the body of the [try] raises [e] (from the agent's [run] or
    from [get_agent_output]). *)
Definition extraction_fails (plan : ResearchPlan) (angle : str) (tr : trace)
    (e : exn) : Prop :=
  exists results tr1 tr2,
    research_angle plan angle tr = (Ok results, tr1) /\
    extract (angle_prompt plan angle results) tr1 = (Raise e, tr2).

Lemma process_angle_fallback plan angle tr e :
  extraction_fails plan angle tr e ->
  (process_angle plan angle tr).1 = Ok (empty_angle_data angle).
Proof.
  intros (results & tr1 & tr2 & Hrun & Hraise).
  unfold process_angle, mbind, M_bind. rewrite Hrun. unfold try_except.
  by rewrite Hraise.
Qed.

(** A way to establish [extraction_fails] by running the two steps. *)
Lemma extraction_fails_run plan angle tr e :
  (let (o, tr1) := research_angle plan angle tr in
   match o with
   | Ok results => (extract (angle_prompt plan angle results) tr1).1 = Raise e
   | Raise _ => False
   end) ->
  extraction_fails plan angle tr e.
Proof.
  destruct (research_angle plan angle tr) as [[results|e'] tr1] eqn:Hrun; [|done].
  intros Hraise. exists results, tr1.
  destruct (extract _ tr1) as [o tr2] eqn:Hextract. exists tr2.
  simpl in Hraise. by subst o.
Qed.

(** The planning stage raises exactly when the planner's [run] raises or
    [get_agent_output] finds no output in what it returned. *)
Lemma make_plan_raises user_input tr e :
  (make_plan user_input tr).1 = Raise e <->
  planning_agent_run tr user_input = Raise e \/
  exists plan_run, planning_agent_run tr user_input = Ok plan_run /\
                   get_agent_output plan_run = Raise e.
Proof.
  unfold make_plan, mbind, M_bind, call, lift, mret, M_ret.
  destruct (planning_agent_run tr user_input) as [plan_run|e0] eqn:Hrun.
  - destruct (get_agent_output plan_run) as [plan|e1] eqn:Hout; simpl.
    + split; [done|]. intros [?|(r & [= <-] & Hr)]; [done|]. congruence.
    + split.
      * intros [= ->]. right. by exists plan_run.
      * intros [?|(r & [= <-] & Hr)]; [done|]. congruence.
  - simpl. split.
    + intros [= ->]. by left.
    + intros [[= ->]|(r & ? & _)]; done.
Qed.

Lemma make_plan_trace user_input tr :
  (make_plan user_input tr).2 = tr ++ [EvPlan user_input].
Proof.
  unfold make_plan, mbind, M_bind, call, lift, mret, M_ret.
  destruct (planning_agent_run tr user_input) as [plan_run|e]; [|done].
  by destruct (get_agent_output plan_run).
Qed.

(** The synthesis step makes exactly one call, whether it fails or not. *)
Lemma synthesis_trace prompt tr :
  (try_except (synthesize prompt)
     (fun e => mret (lit "Error synthesizing report: " ++ exn_str e)) tr).2
  = tr ++ [EvSynth prompt].
Proof.
  unfold try_except, synthesize, mbind, M_bind, call, lift, mret, M_ret.
  destruct (synthesis_agent_run tr prompt) as [report_run|e]; [|done].
  by destruct (get_agent_output report_run).
Qed.

Lemma deep_research_planned user_input tr0 plan tr :
  make_plan user_input tr0 = (Ok plan, tr) ->
  deep_research user_input tr0 = research_and_report plan tr.
Proof. intros Hplan. unfold deep_research. by rewrite Hplan. Qed.

(** C3.  In a run whose plan has N angles, when the extraction of one
    angle raises, [process_angle] returns for that angle the placeholder
    with the planned angle and empty [key_facts], [claims] and
    [citations]; the orchestrator still collects one entry per planned
    angle (entry [j] is what [process_angle] returned for angle [j]) and
    goes on to the synthesis with all of them. *)
Theorem failed_extraction_keeps_batch user_input tr0 plan tr k failed e :
  make_plan user_input tr0 = (Ok plan, tr) ->
  angles plan !! k = Some failed ->
  extraction_fails plan failed (started_at plan k tr) e ->
  (process_angle plan failed (started_at plan k tr)).1
  = Ok {| angle := failed; key_facts := []; claims := []; citations := [] |} /\
  exists angle_data_list tr',
    gather (process_angle plan <$> angles plan) tr = (Ok angle_data_list, tr') /\
    length angle_data_list = length (angles plan) /\
    angle_data_list !! k = Some (empty_angle_data failed) /\
    (forall j a, angles plan !! j = Some a ->
       exists data, angle_data_list !! j = Some data /\
         (process_angle plan a (started_at plan j tr)).1 = Ok data) /\
    deep_research user_input tr0
    = try_except (synthesize (report_prompt plan angle_data_list))
        (fun e => mret (lit "Error synthesizing report: " ++ exn_str e)) tr' /\
    (deep_research user_input tr0).2
    = tr' ++ [EvSynth (report_prompt plan angle_data_list)].
Proof.
  intros Hplan Hk Hfails.
  pose proof (process_angle_fallback _ _ _ _ Hfails) as Hfallback.
  split; [done|].
  destruct (gather_returns (process_angle plan) (angles plan) tr
              (process_angle_returns plan))
    as (angle_data_list & tr' & Hgather & Hlen & Hnth).
  exists angle_data_list, tr'.
  split; [done|]. split; [done|]. split.
  { destruct (Hnth k failed Hk) as (data & Hdata & Hrun).
    fold (started_at plan k tr) in Hrun. rewrite Hfallback in Hrun.
    by injection Hrun as <-. }
  split; [exact Hnth|].
  assert (Hdeep : deep_research user_input tr0
    = try_except (synthesize (report_prompt plan angle_data_list))
        (fun e => mret (lit "Error synthesizing report: " ++ exn_str e)) tr').
  { rewrite (deep_research_planned _ _ _ _ Hplan).
    unfold research_and_report, mbind, M_bind at 1. by rewrite Hgather. }
  split; [done|]. rewrite Hdeep. apply synthesis_trace.
Qed.

(** C4.  When the planning stage raises, the run stops there: the
    response is the error text (the fixed label followed by the text of
    the exception as it is) and the only call made is the one to the
    planner.  When the synthesis stage raises, the response is the error
    text in the same way, in place of the report. *)
Theorem plan_and_synthesis_failures_surface user_input tr :
  (forall e tr',
     make_plan user_input tr = (Raise e, tr') ->
     deep_research user_input tr
     = (Ok (lit "Error generating plan: " ++ exn_str e),
        tr ++ [EvPlan user_input])) /\
  (forall plan tr1 angle_data_list tr2 e tr3,
     make_plan user_input tr = (Ok plan, tr1) ->
     gather (process_angle plan <$> angles plan) tr1 = (Ok angle_data_list, tr2) ->
     synthesize (report_prompt plan angle_data_list) tr2 = (Raise e, tr3) ->
     deep_research user_input tr
     = (Ok (lit "Error synthesizing report: " ++ exn_str e), tr3)).
Proof.
  split.
  - intros e tr' Hplan. unfold deep_research.
    pose proof (make_plan_trace user_input tr) as Htr.
    rewrite Hplan in *. simpl in Htr. by subst tr'.
  - intros plan tr1 angle_data_list tr2 e tr3 Hplan Hgather Hsynth.
    rewrite (deep_research_planned _ _ _ _ Hplan).
    unfold research_and_report, mbind, M_bind at 1. rewrite Hgather.
    unfold try_except. by rewrite Hsynth.
Qed.

End Pipeline.

(** * The theorems at work on the sample data *)

Section Samples.
#[local] Existing Instance ascii_runtime.

(** C1 as stated fails: a ticker plan of three angles, two of which
    mention SWOT, is left as it is, with two SWOT angles. *)
Lemma two_swot_angles_remain :
  needs_swot two_swot_plan = true /\
  ensure_swot_angle_if_applicable two_swot_plan = two_swot_plan /\
  swot_count (angles (ensure_swot_angle_if_applicable two_swot_plan)) = 2 /\
  ~ (swot_count (angles (ensure_swot_angle_if_applicable two_swot_plan)) = 1 /\
     3 <= length (angles (ensure_swot_angle_if_applicable two_swot_plan)) <= 4).
Proof.
  split; [reflexivity|]. split; [reflexivity|]. split; [reflexivity|].
  intros [Hone _]. vm_compute in Hone. discriminate Hone.
Qed.

(** The angle count is not brought back into 3..4 either: a fifth angle
    is overwritten, not dropped, and an empty list gets one angle. *)
Example five_angles_stay_five :
  needs_swot five_angle_plan = true /\
  length (angles (ensure_swot_angle_if_applicable five_angle_plan)) = 5.
Proof. split; reflexivity. Qed.

Example no_angles_become_one :
  angles (ensure_swot_angle_if_applicable (with_angles five_angle_plan []))
  = [lit "SWOT analysis"].
Proof. reflexivity. Qed.

Lemma ensure_swot_adds_swot_angle_witness :
  swot_count (angles (ensure_swot_angle_if_applicable four_angle_plan)) = 1 /\
  3 <= length (angles (ensure_swot_angle_if_applicable four_angle_plan)) <= 4.
Proof.
  destruct (ensure_swot_adds_swot_angle four_angle_plan) as (_ & Hone & Hlen).
  - reflexivity.
  - split; [apply Hone | apply Hlen]; vm_compute; lia.
Defined.

Lemma ensure_swot_replaces_last_of_four_witness :
  angles (ensure_swot_angle_if_applicable four_angle_plan)
  = [lit "recent performance"; lit "market positioning"; lit "guidance";
     lit "SWOT analysis"].
Proof.
  destruct (ensure_swot_replaces_last_of_four four_angle_plan) as (Hangles & _).
  - reflexivity.
  - reflexivity.
  - reflexivity.
  - exact Hangles.
Defined.

Lemma ensure_swot_frame_witness :
  needs_swot quantum_plan = false /\
  ensure_swot_angle_if_applicable quantum_plan = quantum_plan.
Proof.
  split; [reflexivity|].
  destruct (ensure_swot_frame quantum_plan) as (_ & _ & _ & Hsame).
  apply Hsame. reflexivity.
Defined.

Lemma search_provider_failure_witness :
  @search_duckduckgo search_down (lit "Volkswagen guidance") 5 []
  = (Ok [], [EvSearch (lit "Volkswagen guidance") 5]).
Proof.
  apply (@search_provider_failure search_down (lit "Volkswagen guidance") 5 []
           (Exception "RatelimitException" (lit "202 Ratelimit"))).
  reflexivity.
Defined.

(** A 404 and a time-out both come back as [None]. *)
Lemma fetch_failure_gives_none_witness :
  @fetch_page_content all_up (lit "https://example.com/gone") []
  = (Ok None, [EvFetch (lit "https://example.com/gone")]) /\
  @fetch_page_content all_up (lit "https://example.com/forum") []
  = (Ok None, [EvFetch (lit "https://example.com/forum")]).
Proof.
  split.
  - apply (@fetch_failure_gives_none all_up).
    apply (@status_not_2xx all_up _ _
             {| status_code := 404; text := lit "Not Found";
                status_error := lit "Client error '404 Not Found'" |}).
    + reflexivity.
    + simpl. lia.
  - apply (@fetch_failure_gives_none all_up).
    apply (@client_raises all_up _ _ (Exception "ConnectTimeout" (lit "timed out"))).
    reflexivity.
Defined.

Lemma fetch_content_truncated_witness :
  @fetch_page_content all_up (lit "https://example.com/report") []
  = (Ok (Some (lit "Revenue grew by 12%")),
     [EvFetch (lit "https://example.com/report")]) /\
  length (lit "Revenue grew by 12%") <= 10000.
Proof.
  split; [reflexivity|].
  apply (@fetch_content_truncated all_up (lit "https://example.com/report") []
           (lit "Revenue grew by 12%")
           [EvFetch (lit "https://example.com/report")]).
  reflexivity.
Defined.

(** The sample run: the first page is fetched and attached, the second is
    a 404 and stays without content, the third and fourth results are not
    fetched at all. *)
Example research_angle_sample :
  let run := @research_angle all_up four_angle_plan (lit "guidance") [] in
  (match run.1 with Ok results => content <$> results | Raise _ => [] end)
  = [Some (lit "Revenue grew by 12%"); None; None; None] /\
  run.2 = [EvSearch (lit "Volkswagen guidance") 5;
           EvFetch (lit "https://example.com/report");
           EvFetch (lit "https://example.com/gone")].
Proof. split; vm_compute; reflexivity. Qed.

(** The run on "VLKAF": the plan gets its fourth angle replaced by SWOT,
    the extraction of "guidance" (the third angle) fails, and the
    synthesis still gets four entries. *)
Lemma failed_extraction_keeps_batch_witness :
  exists angle_data_list,
    (@gather AngleData
       (@process_angle all_up (ensure_swot_angle_if_applicable four_angle_plan)
          <$> angles (ensure_swot_angle_if_applicable four_angle_plan))
       [EvPlan (lit "VLKAF")]).1 = Ok angle_data_list /\
    length angle_data_list = 4 /\
    angle_data_list !! 2 = Some (empty_angle_data (lit "guidance")).
Proof.
  destruct (@failed_extraction_keeps_batch ascii_runtime all_up
              (lit "VLKAF") [] (ensure_swot_angle_if_applicable four_angle_plan)
              [EvPlan (lit "VLKAF")] 2 (lit "guidance")
              (Exception "UnexpectedModelBehavior" (lit "exceeded retries")))
    as (_ & angle_data_list & tr' & Hgather & Hlen & Hfailed & _).
  - reflexivity.
  - reflexivity.
  - apply extraction_fails_run. vm_compute. reflexivity.
  - exists angle_data_list. rewrite Hgather. by repeat split.
Defined.

Lemma plan_and_synthesis_failures_surface_witness :
  @deep_research ascii_runtime planner_down (lit "VLKAF") []
  = (Ok (lit "Error generating plan: status_code: 429"), [EvPlan (lit "VLKAF")]) /\
  (@deep_research ascii_runtime synthesiser_down (lit "VLKAF") []).1
  = Ok (lit "Error synthesizing report: status_code: 500").
Proof.
  split.
  - apply (proj1 (@plan_and_synthesis_failures_surface ascii_runtime planner_down
                    (lit "VLKAF") [])
             (Exception "ModelHTTPError" (lit "status_code: 429"))
             [EvPlan (lit "VLKAF")]).
    reflexivity.
  - destruct (@gather_returns _ _
                (@process_angle synthesiser_down
                   (ensure_swot_angle_if_applicable four_angle_plan))
                (angles (ensure_swot_angle_if_applicable four_angle_plan))
                [EvPlan (lit "VLKAF")]
                (@process_angle_returns synthesiser_down _))
      as (angle_data_list & tr2 & Hgather & _).
    rewrite (proj2 (@plan_and_synthesis_failures_surface ascii_runtime
                      synthesiser_down (lit "VLKAF") [])
               (ensure_swot_angle_if_applicable four_angle_plan)
               [EvPlan (lit "VLKAF")] angle_data_list tr2
               (Exception "ModelHTTPError" (lit "status_code: 500"))
               (tr2 ++ [EvSynth (report_prompt
                                   (ensure_swot_angle_if_applicable four_angle_plan)
                                   angle_data_list)])).
    + reflexivity.
    + reflexivity.
    + exact Hgather.
    + reflexivity.
Defined.

End Samples.

(** * Further properties of the SWOT rule *)

Section SwotMore.
Context `{!PyRuntime}.

(** ** Substring search and lower-casing *)

Lemma startswith_app needle post : startswith (needle ++ post) needle = true.
Proof.
  induction needle as [|c needle IH]; simpl; [by destruct post|].
  by rewrite N.eqb_refl, IH.
Qed.

Lemma contains_startswith needle hay :
  startswith hay needle = true -> contains needle hay = true.
Proof. destruct hay; simpl; by intros ->. Qed.

Lemma contains_app needle pre post :
  contains needle (pre ++ needle ++ post) = true.
Proof.
  induction pre as [|c pre IH]; simpl.
  - apply contains_startswith, startswith_app.
  - rewrite IH. apply orb_true_r.
Qed.

(** Lower-casing works character by character, each at its position. *)
Lemma lower_from_app s i a b :
  lower_from s i (a ++ b) = lower_from s i a ++ lower_from s (i + length a) b.
Proof.
  revert i. induction a as [|c a IH]; intros i; simpl.
  - by rewrite Nat.add_0_r.
  - rewrite IH, <- app_assoc. by replace (S i + length a) with (i + S (length a)) by lia.
Qed.

Lemma lower_from_ascii s i K :
  Forall (fun c => (c < 128)%N) K ->
  lower_from s i K = ascii_lower <$> K.
Proof.
  intros HK. revert i. induction HK as [|c K Hc HK IH]; intros i; simpl; [done|].
  apply N.ltb_lt in Hc. by rewrite Hc, IH.
Qed.

(** A run of ASCII characters shows up lower-cased in the lower-cased
    string, whatever surrounds it. *)
Lemma contains_lower pre K post :
  Forall (fun c => (c < 128)%N) K ->
  contains (ascii_lower <$> K) (lower (pre ++ K ++ post)) = true.
Proof.
  intros HK. unfold lower.
  rewrite lower_from_app, lower_from_app, (lower_from_ascii _ _ K HK).
  apply contains_app.
Qed.

Lemma mentions_swot_exists (l : list str) a :
  a ∈ l -> mentions_swot a = true -> existsb mentions_swot l = true.
Proof.
  intros Hin Ha. apply existsb_exists. exists a. split; [|done].
  by apply list_elem_of_In.
Qed.

(** Once the rule is due, the plan it leaves mentions SWOT. *)
Lemma ensure_swot_mentions plan :
  needs_swot plan = true ->
  existsb mentions_swot (angles (ensure_swot_angle_if_applicable plan)) = true.
Proof.
  intros Hneeds. rewrite ensure_swot_angles, Hneeds. cbn [andb].
  destruct (existsb mentions_swot (angles plan)) eqn:Hany; cbn [negb]; [done|].
  destruct (4 <=? length (angles plan));
    rewrite existsb_app; cbn [existsb];
    rewrite mentions_swot_literal; by rewrite orb_true_r.
Qed.

(** X1.  The keyword test ignores case: when the topic and context (joined
    by a space) contain a financial keyword in any mix of upper and lower
    case, the rule is due and the plan it leaves mentions SWOT, ticker or
    not. *)
Theorem keyword_in_any_case_triggers plan keyword K pre post :
  keyword ∈ keywords ->
  Forall (fun c => (c < 128)%N) K ->
  ascii_lower <$> K = keyword ->
  topic plan ++ lit " " ++ context plan = pre ++ K ++ post ->
  needs_swot plan = true /\
  existsb mentions_swot (angles (ensure_swot_angle_if_applicable plan)) = true.
Proof.
  intros Hkw HK Hlower Hin.
  assert (Hneeds : needs_swot plan = true).
  { unfold needs_swot. destruct (is_ticker plan); [done|]. cbn zeta.
    apply existsb_exists. exists keyword. split; [by apply list_elem_of_In|].
    rewrite Hin, <- Hlower. by apply contains_lower. }
  split; [done|]. by apply ensure_swot_mentions.
Qed.

(** X2.  A plan that already has an angle with "swot" in it, in any mix of
    upper and lower case, is left exactly as it is: the existing angle is
    not renamed and nothing is added or overwritten. *)
Theorem existing_swot_angle_kept plan a K pre post :
  a ∈ angles plan ->
  Forall (fun c => (c < 128)%N) K ->
  ascii_lower <$> K = lit "swot" ->
  a = pre ++ K ++ post ->
  ensure_swot_angle_if_applicable plan = plan.
Proof.
  intros Hin HK Hlower ->.
  assert (Hany : existsb mentions_swot (angles plan) = true).
  { apply (mentions_swot_exists _ _ Hin). unfold mentions_swot.
    rewrite <- Hlower. by apply contains_lower. }
  unfold ensure_swot_angle_if_applicable. rewrite Hany.
  by destruct (needs_swot plan).
Qed.

(** X3.  The rule never shortens the angle list and adds at most one
    angle; a list of at most 4 angles stays within 4, and a list of 4 or
    more keeps its length. *)
Theorem ensure_swot_length plan :
  let n := length (angles plan) in
  let n' := length (angles (ensure_swot_angle_if_applicable plan)) in
  n <= n' <= S n /\ (n <= 4 -> n' <= 4) /\ (4 <= n -> n' = n).
Proof.
  cbn zeta. rewrite ensure_swot_angles.
  destruct (needs_swot plan && negb (existsb mentions_swot (angles plan)));
    [|lia].
  destruct (4 <=? length (angles plan)) eqn:Hlen.
  - apply Nat.leb_le in Hlen. rewrite length_app, length_take. simpl. lia.
  - apply Nat.leb_gt in Hlen. rewrite length_app. simpl. lia.
Qed.

(** X4.  Every angle but the last stays where it was; with fewer than 4
    angles the whole list is kept as a prefix; and the only angle the rule
    ever introduces is "SWOT analysis". *)
Theorem ensure_swot_keeps_other_angles plan :
  let plan' := ensure_swot_angle_if_applicable plan in
  (forall i, S i < length (angles plan) -> angles plan' !! i = angles plan !! i) /\
  (length (angles plan) < 4 -> angles plan `prefix_of` angles plan') /\
  (forall a, a ∈ angles plan' -> a ∈ angles plan \/ a = lit "SWOT analysis").
Proof.
  cbn zeta. rewrite ensure_swot_angles.
  destruct (needs_swot plan && negb (existsb mentions_swot (angles plan))).
  2: { split; [done|]. split; [done|]. intros a Ha. by left. }
  destruct (4 <=? length (angles plan)) eqn:Hlen.
  - apply Nat.leb_le in Hlen. split; [|split].
    + intros i Hi. rewrite lookup_app_l by (rewrite length_take; lia).
      apply lookup_take_lt. lia.
    + lia.
    + intros a [Ha| ->%list_elem_of_singleton]%elem_of_app; [|by right].
      left. by apply (subseteq_take _ _ _ Ha).
  - apply Nat.leb_gt in Hlen. split; [|split].
    + intros i Hi. apply lookup_app_l. lia.
    + intros _. by apply prefix_app_r.
    + intros a [Ha| ->%list_elem_of_singleton]%elem_of_app; [by left | by right].
Qed.

End SwotMore.

(** * Properties of [get_agent_output] *)

Section AgentOutput.
Context {A : Type}.
Implicit Types (run_result : AgentRunResult A) (value : A).

(** The attribute names and the dictionary keys the function tries, in the
    order in which it tries them. *)
Definition public_attrs : list string := ["output"; "data"; "result"]%string.
Definition dict_keys : list string :=
  ["output"; "data"; "_output"; "_data"; "result"; "_result"]%string.

Lemma first_attr_Some run_result attrs value :
  first_attr run_result attrs = Some value ->
  exists attr, attr ∈ attrs /\ getattr run_result attr = Ok (Some value).
Proof.
  induction attrs as [|attr attrs IH]; simpl; [done|].
  destruct (getattr run_result attr) as [[w|]|e] eqn:Hattr.
  - intros [= ->]. exists attr. split; [left|done].
  - intros (attr' & Hin & Hget)%IH. exists attr'. split; [by right|done].
  - intros (attr' & Hin & Hget)%IH. exists attr'. split; [by right|done].
Qed.

Lemma first_attr_app run_result before attr after value :
  (forall a w, a ∈ before -> getattr run_result a <> Ok (Some w)) ->
  getattr run_result attr = Ok (Some value) ->
  first_attr run_result (before ++ attr :: after) = Some value.
Proof.
  intros Hbefore Hattr. induction before as [|a before IH]; simpl.
  - by rewrite Hattr.
  - destruct (getattr run_result a) as [[w|]|e] eqn:Ha.
    + exfalso. apply (Hbefore a w); [left|done].
    + apply IH. intros a' w Hin. apply Hbefore. by right.
    + apply IH. intros a' w Hin. apply Hbefore. by right.
Qed.

Lemma first_attr_None run_result attrs :
  first_attr run_result attrs = None <->
  forall a w, a ∈ attrs -> getattr run_result a <> Ok (Some w).
Proof.
  split.
  - intros Hnone a w Hin Hget.
    apply list_elem_of_split in Hin as (before & after & ->).
    induction before as [|b before IH]; simpl in Hnone.
    + by rewrite Hget in Hnone.
    + destruct (getattr run_result b) as [[w'|]|e]; [done|by apply IH..].
  - intros Hno. destruct (first_attr run_result attrs) as [value|] eqn:Hfirst; [|done].
    apply first_attr_Some in Hfirst as (attr & Hin & Hget).
    by destruct (Hno attr value).
Qed.

Lemma first_key_Some (data : list (string * option A)) keys value :
  first_key data keys = Some value ->
  exists key, key ∈ keys /\ dict_get data key = Some (Some value).
Proof.
  induction keys as [|key keys IH]; simpl; [done|].
  destruct (dict_get data key) as [[w|]|] eqn:Hkey.
  - intros [= ->]. exists key. split; [left|done].
  - intros (key' & Hin & Hget)%IH. exists key'. split; [by right|done].
  - intros (key' & Hin & Hget)%IH. exists key'. split; [by right|done].
Qed.

Lemma first_key_app (data : list (string * option A)) before key after value :
  (forall k w, k ∈ before -> dict_get data k <> Some (Some w)) ->
  dict_get data key = Some (Some value) ->
  first_key data (before ++ key :: after) = Some value.
Proof.
  intros Hbefore Hkey. induction before as [|k before IH]; simpl.
  - by rewrite Hkey.
  - destruct (dict_get data k) as [[w|]|] eqn:Hk.
    + exfalso. apply (Hbefore k w); [left|done].
    + apply IH. intros k' w Hin. apply Hbefore. by right.
    + apply IH. intros k' w Hin. apply Hbefore. by right.
Qed.

Lemma first_key_None (data : list (string * option A)) keys :
  first_key data keys = None <->
  forall k w, k ∈ keys -> dict_get data k <> Some (Some w).
Proof.
  split.
  - intros Hnone k w Hin Hget.
    apply list_elem_of_split in Hin as (before & after & ->).
    induction before as [|b before IH]; simpl in Hnone.
    + by rewrite Hget in Hnone.
    + destruct (dict_get data b) as [[w'|]|]; [done|by apply IH..].
  - intros Hno. destruct (first_key data keys) as [value|] eqn:Hfirst; [|done].
    apply first_key_Some in Hfirst as (key & Hin & Hget).
    by destruct (Hno key value).
Qed.

(** X5.  What [get_agent_output] returns is never made up and never
    [None]: it is the non-[None] value of one of the attributes [output],
    [data], [result], or the non-[None] entry of the instance dictionary
    under one of the six keys. *)
Theorem get_agent_output_sound run_result value :
  get_agent_output run_result = Ok value ->
  (exists attr, attr ∈ public_attrs /\
                getattr run_result attr = Ok (Some value)) \/
  (exists data key, vars run_result = Ok data /\ key ∈ dict_keys /\
                    dict_get data key = Some (Some value)).
Proof.
  unfold get_agent_output.
  destruct (first_attr run_result _) as [v|] eqn:Hattr.
  - intros [= ->]. left. by apply first_attr_Some.
  - destruct (first_key _ _) as [v|] eqn:Hkey; [|done].
    intros [= ->]. right.
    apply first_key_Some in Hkey as (key & Hin & Hget).
    destruct (vars run_result) as [data|e]; [|done].
    by exists data, key.
Qed.

(** X6.  [get_agent_output] raises exactly when none of the three
    attributes has a value (each raises or is [None]) and the instance
    dictionary has no value under any of the six keys (or cannot be read);
    what it raises is an [AttributeError]. *)
Theorem get_agent_output_raises_iff run_result :
  ((exists e, get_agent_output run_result = Raise e) <->
   (forall attr w, attr ∈ public_attrs ->
      getattr run_result attr <> Ok (Some w)) /\
   (forall data key w, vars run_result = Ok data -> key ∈ dict_keys ->
      dict_get data key <> Some (Some w))) /\
  (forall e, get_agent_output run_result = Raise e ->
     exists msg, e = Exception "AttributeError" msg).
Proof.
  unfold get_agent_output. split; [split|].
  - intros [e He].
    destruct (first_attr run_result _) as [v|] eqn:Hattr; [done|].
    destruct (first_key _ _) as [v|] eqn:Hkey; [done|].
    split; [by apply first_attr_None|].
    intros data key w Hvars. rewrite Hvars in Hkey.
    by apply first_key_None.
  - intros [Hattrs Hkeys].
    apply first_attr_None in Hattrs. fold public_attrs. rewrite Hattrs.
    destruct (first_key _ _) as [v|] eqn:Hkey; [|by eexists].
    apply first_key_Some in Hkey as (key & Hin & Hget).
    destruct (vars run_result) as [data|e]; [|done].
    by destruct (Hkeys data key v).
  - intros e. destruct (first_attr run_result _); [done|].
    destruct (first_key _ _); [done|]. intros [= <-]. by eexists.
Qed.

(** X7.  The attributes are tried in the order [output], [data], [result]:
    one that raises or is [None] is passed over, the first with a value
    wins, and the instance dictionary is not consulted. *)
Theorem get_agent_output_attribute_order run_result before attr after value :
  public_attrs = before ++ attr :: after ->
  (forall a w, a ∈ before -> getattr run_result a <> Ok (Some w)) ->
  getattr run_result attr = Ok (Some value) ->
  get_agent_output run_result = Ok value.
Proof.
  intros Hsplit Hbefore Hattr. unfold get_agent_output. fold public_attrs.
  by rewrite Hsplit, (first_attr_app _ _ _ _ _ Hbefore Hattr).
Qed.

(** X8.  When no attribute has a value, the instance dictionary is the
    fallback: its keys are tried in the order [output], [data], [_output],
    [_data], [result], [_result]; a missing key or a [None] entry is
    passed over and the first entry with a value wins. *)
Theorem get_agent_output_dict_fallback run_result data before key after value :
  (forall a w, a ∈ public_attrs -> getattr run_result a <> Ok (Some w)) ->
  vars run_result = Ok data ->
  dict_keys = before ++ key :: after ->
  (forall k w, k ∈ before -> dict_get data k <> Some (Some w)) ->
  dict_get data key = Some (Some value) ->
  get_agent_output run_result = Ok value.
Proof.
  intros Hattrs%first_attr_None Hvars Hsplit Hbefore Hkey.
  unfold get_agent_output. fold public_attrs dict_keys.
  by rewrite Hattrs, Hvars, Hsplit, (first_key_app _ _ _ _ _ Hbefore Hkey).
Qed.

End AgentOutput.

(** * Further properties of the tools *)

(** The text of a field of a search hit: the string under the key, and the
    empty string when the key is missing. *)
Definition field_text (r : gmap string pyval) (key : string) : str :=
  match r !! key with
  | Some (PyStr s) => s
  | Some (PyOther _) | None => []
  end.

(** A hit whose title, href and body are strings where present. *)
Definition well_typed_hit (r : gmap string pyval) : Prop :=
  forall key why, key ∈ ["title"; "href"; "body"]%string ->
    r !! key <> Some (PyOther why).

Definition result_of_hit (r : gmap string pyval) : ResearchResult :=
  {| title := field_text r "title"; url := field_text r "href";
     snippet := field_text r "body"; content := None |}.

(** A search world: [all_up], with a provider that returns the given hits. *)
Definition services_with_hits (hits : list (gmap string pyval)) : Services :=
  {| planning_agent_run := @planning_agent_run all_up;
     ddgs_text := fun _ _ _ => Ok hits;
     client_get := @client_get all_up;
     soup_get_text := @soup_get_text all_up;
     extraction_agent_run := @extraction_agent_run all_up;
     synthesis_agent_run := @synthesis_agent_run all_up |}.

(** Three hits: one without a title, one whose body is not a string, and
    one that is fine. *)
Definition mixed_hits : list (gmap string pyval) :=
  [ {[ "href"%string := PyStr (lit "https://example.com/untitled");
       "body"%string := PyStr (lit "No title here") ]};
    {[ "title"%string := PyStr (lit "Broken");
       "href"%string := PyStr (lit "https://example.com/broken");
       "body"%string := PyOther (lit "Input should be a valid string") ]};
    sample_hit "Annual report" "https://example.com/report" "Results of the year" ].

Section ToolsMore.
Context `{!Services}.

Lemma hit_get_text r key :
  (forall why, r !! key <> Some (PyOther why)) ->
  validate_str (hit_get r key) = Ok (field_text r key).
Proof.
  intros Hkey. unfold hit_get, field_text.
  destruct (r !! key) as [[s|why]|]; simpl; [done| |done].
  by destruct (Hkey why).
Qed.

Lemma new_ResearchResult_well_typed r :
  well_typed_hit r ->
  new_ResearchResult (hit_get r "title") (hit_get r "href") (hit_get r "body")
  = Ok (result_of_hit r).
Proof.
  intros Hr. unfold new_ResearchResult.
  rewrite !hit_get_text; [done|..]; intros why; apply Hr; set_solver.
Qed.

Lemma new_ResearchResult_ill_typed r :
  ~ well_typed_hit r ->
  exists e, new_ResearchResult (hit_get r "title") (hit_get r "href")
              (hit_get r "body") = Raise e.
Proof.
  intros Hr. unfold new_ResearchResult, hit_get.
  destruct (r !! "title"%string) as [[t|why]|] eqn:Ht; simpl; [|by eexists|];
    (destruct (r !! "href"%string) as [[u|why]|] eqn:Hu; simpl; [|by eexists|]);
    (destruct (r !! "body"%string) as [[s|why]|] eqn:Hs; simpl; [|by eexists|]);
    exfalso; apply Hr; intros key why Hkey;
    apply elem_of_cons in Hkey as [->|Hkey]; try congruence;
    apply elem_of_cons in Hkey as [->|Hkey]; try congruence;
    apply list_elem_of_singleton in Hkey as ->; congruence.
Qed.

Lemma append_hits_well_typed good rest results :
  Forall well_typed_hit good ->
  append_hits (good ++ rest) results
  = append_hits rest (results ++ (result_of_hit <$> good)).
Proof.
  intros Hgood. revert results.
  induction Hgood as [|r good Hr Hgood IH]; intros results; simpl.
  - by rewrite app_nil_r.
  - rewrite (new_ResearchResult_well_typed _ Hr), IH, <- app_assoc. done.
Qed.

(** X9.  When every hit of the provider is well typed, the search returns
    one result per hit, in the provider's order, with title, url and
    snippet read from the keys [title], [href] and [body] (the empty string
    for a missing key) and no content. *)
Theorem search_results_follow_hits query max_results tr hits :
  ddgs_text tr query max_results = Ok hits ->
  Forall well_typed_hit hits ->
  search_duckduckgo query max_results tr
  = (Ok (result_of_hit <$> hits), tr ++ [EvSearch query max_results]).
Proof.
  intros Hhits Hgood. rewrite search_duckduckgo_run, Hhits.
  rewrite <- (app_nil_r hits) at 1.
  by rewrite (append_hits_well_typed _ _ _ Hgood).
Qed.

(** X10.  A hit that does not validate ends the conversion without an
    error: the search returns the results of the hits before it, and the
    hits after it are dropped, valid or not. *)
Theorem search_stops_at_bad_hit query max_results tr good bad rest :
  ddgs_text tr query max_results = Ok (good ++ bad :: rest) ->
  Forall well_typed_hit good ->
  ~ well_typed_hit bad ->
  search_duckduckgo query max_results tr
  = (Ok (result_of_hit <$> good), tr ++ [EvSearch query max_results]).
Proof.
  intros Hhits Hgood Hbad. rewrite search_duckduckgo_run, Hhits.
  rewrite (append_hits_well_typed _ _ _ Hgood). simpl.
  by destruct (new_ResearchResult_ill_typed _ Hbad) as [e ->].
Qed.

(** [fetch_page_content], outcome by outcome. *)
Lemma fetch_page_content_run url tr :
  fetch_page_content url tr =
    (Ok (match client_get tr url with
         | Ok response =>
             match raise_for_status response, soup_get_text (text response) with
             | Ok _, Ok page_text => Some (take 10000 page_text)
             | _, _ => None
             end
         | Raise _ => None
         end),
     tr ++ [EvFetch url]).
Proof.
  unfold fetch_page_content, try_except, mbind, M_bind, call, lift, mret, M_ret.
  destruct (client_get tr url) as [response|e]; [|done].
  destruct (raise_for_status response); [|done].
  by destruct (soup_get_text (text response)).
Qed.

(** X11.  [fetch_page_content] never raises and makes exactly one HTTP
    call; it returns [None] exactly when the fetch failed (the client
    raised, the status was not a 2xx, or the parser raised). *)
Theorem fetch_none_iff_failure url tr :
  exists c,
    fetch_page_content url tr = (Ok c, tr ++ [EvFetch url]) /\
    (c = None <-> fetch_fails url tr).
Proof.
  rewrite fetch_page_content_run. eexists. split; [done|].
  destruct (client_get tr url) as [response|e] eqn:Hget.
  2: { split; [|done]. intros _. by eapply client_raises. }
  destruct (raise_for_status response) as [[]|e] eqn:Hstatus.
  - destruct (soup_get_text (text response)) as [page_text|e] eqn:Hparse.
    + split; [done|].
      intros [e He | r Hr Hbad | r e Hr Hparse']; [congruence| |congruence].
      assert (r = response) as -> by congruence.
      by rewrite (raise_for_status_error _ Hbad) in Hstatus.
    + split; [|done]. intros _. by eapply parser_raises.
  - split; [|done]. intros _.
    eapply status_not_2xx; [done|]. intros Hok.
    by rewrite (raise_for_status_ok _ Hok) in Hstatus.
Qed.

(** X12.  A page that is served with a 2xx status and parses is returned
    as its cleaned text cut to 10000 characters; a text of at most 10000
    characters (the empty text included) is returned whole. *)
Theorem fetch_success url tr response page_text :
  client_get tr url = Ok response ->
  200 <= status_code response <= 299 ->
  soup_get_text (text response) = Ok page_text ->
  fetch_page_content url tr
  = (Ok (Some (take 10000 page_text)), tr ++ [EvFetch url]) /\
  (length page_text <= 10000 ->
   fetch_page_content url tr = (Ok (Some page_text), tr ++ [EvFetch url])).
Proof.
  intros Hget Hok Hparse.
  rewrite fetch_page_content_run, Hget, (raise_for_status_ok _ Hok), Hparse.
  split; [done|]. intros Hshort. by rewrite take_ge.
Qed.

End ToolsMore.

(** * Further properties of the orchestration *)

Definition is_plan (ev : event) : bool :=
  match ev with EvPlan _ => true | _ => false end.
Definition is_search (ev : event) : bool :=
  match ev with EvSearch _ _ => true | _ => false end.
Definition is_fetch (ev : event) : bool :=
  match ev with EvFetch _ => true | _ => false end.
Definition is_extract (ev : event) : bool :=
  match ev with EvExtract _ => true | _ => false end.
Definition is_synth (ev : event) : bool :=
  match ev with EvSynth _ => true | _ => false end.

(** How many calls of one kind a trace holds. *)
Definition count_events (kind : event -> bool) (tr : trace) : nat :=
  length (List.filter kind tr).

(** The first line of the extraction prompt, before any search result. *)
Definition angle_prompt_header (plan : ResearchPlan) (angle : str) : str :=
  lit "Topic: " ++ topic plan ++ nl ++ lit "Angle: " ++ angle ++ nl ++ nl
    ++ lit "Search Results:" ++ nl.

Section AngleMore.
Context `{!Services}.

(** The calls of [process_angle] for one angle, started at trace [tr]: the
    search, the fetches of the first two results, the extraction. *)
Definition angle_calls (plan : ResearchPlan) (angle : str) (tr : trace)
    (calls : trace) : Prop :=
  exists found results,
    search_duckduckgo (topic plan ++ lit " " ++ angle) 5 tr
    = (Ok found, tr ++ [EvSearch (topic plan ++ lit " " ++ angle) 5]) /\
    length results = length found /\
    calls = EvSearch (topic plan ++ lit " " ++ angle) 5
              :: (EvFetch ∘ url <$> take 2 found)
              ++ [EvExtract (angle_prompt plan angle results)].

(** The extraction step with its fallback never raises and makes one call. *)
Lemma extract_or_fallback_run prompt angle tr :
  exists data,
    try_except (extract prompt) (fun e => mret (empty_angle_data angle)) tr
    = (Ok data, tr ++ [EvExtract prompt]).
Proof.
  unfold try_except, extract, mbind, M_bind, call, lift, mret, M_ret.
  destruct (extraction_agent_run tr prompt) as [run|e]; [|by eexists].
  destruct (get_agent_output run); by eexists.
Qed.

Lemma process_angle_run plan angle tr :
  exists data calls,
    process_angle plan angle tr = (Ok data, tr ++ calls) /\
    angle_calls plan angle tr calls.
Proof.
  destruct (research_angle_run plan angle tr)
    as (found & results & Hsearch & Hrun & Hlen & _).
  cbn zeta in *.
  destruct (extract_or_fallback_run (angle_prompt plan angle results) angle
              ((tr ++ [EvSearch (topic plan ++ lit " " ++ angle) 5])
                 ++ (EvFetch ∘ url <$> take 2 found)))
    as (data & Hextract).
  exists data. eexists. split.
  - unfold process_angle, mbind, M_bind at 1. rewrite Hrun, Hextract.
    by rewrite <- !app_assoc.
  - by exists found, results.
Qed.


(** X14.  When the search provider raises, [process_angle] fetches nothing
    and still calls the extraction agent, with a prompt that lists no
    search result. *)
Theorem process_angle_without_search plan angle tr e :
  ddgs_text tr (topic plan ++ lit " " ++ angle) 5 = Raise e ->
  exists data,
    process_angle plan angle tr
    = (Ok data,
       tr ++ [EvSearch (topic plan ++ lit " " ++ angle) 5;
              EvExtract (angle_prompt_header plan angle)]).
Proof.
  intros Hraise.
  destruct (extract_or_fallback_run (angle_prompt plan angle []) angle
              (tr ++ [EvSearch (topic plan ++ lit " " ++ angle) 5]))
    as (data & Hextract).
  exists data. unfold process_angle, research_angle.
  unfold mbind at 1, M_bind at 1. unfold mbind at 1, M_bind at 1.
  rewrite search_duckduckgo_run, Hraise.
  change ((gather ((fun r => fetch_page_content (url r)) <$> take 2 [])
             ≫= fun contents => mret (attach_contents 0 contents []))
            (tr ++ [EvSearch (topic plan ++ lit " " ++ angle) 5]))
    with (@Ok (list ResearchResult) [],
          tr ++ [EvSearch (topic plan ++ lit " " ++ angle) 5]).
  cbv beta iota. rewrite Hextract, <- app_assoc.
  unfold angle_prompt, angle_prompt_header. simpl. by rewrite ?app_nil_r.
Qed.

Lemma attach_contents_fmap {B} (f : ResearchResult -> B) contents i results :
  (forall c r, f (attached c r) = f r) ->
  f <$> attach_contents i contents results = f <$> results.
Proof.
  intros Hf. apply list_eq. intros j.
  rewrite !list_lookup_fmap, attach_contents_lookup.
  destruct (if decide (i <= j) then contents !! (j - i) else None); [|done].
  destruct (results !! j); simpl; [|done]. by rewrite Hf.
Qed.

(** X15.  Attaching the fetched pages changes nothing but [content]: the
    results that go into the prompt have the titles, urls and snippets of
    the search, in the same order, and a content that is either absent or
    a non-empty text. *)
Theorem research_angle_keeps_fields plan angle tr found tr1 results tr2 :
  search_duckduckgo (topic plan ++ lit " " ++ angle) 5 tr = (Ok found, tr1) ->
  research_angle plan angle tr = (Ok results, tr2) ->
  title <$> results = title <$> found /\
  url <$> results = url <$> found /\
  snippet <$> results = snippet <$> found /\
  Forall (fun r => content r = None \/
                   exists ch cs, content r = Some (ch :: cs)) results.
Proof.
  intros Hsearch Hrun. unfold research_angle in Hrun.
  unfold mbind at 1, M_bind at 1 in Hrun. rewrite Hsearch in Hrun.
  destruct (gather_fetches (take 2 found) tr1) as (contents & Hcs & _).
  unfold mbind, M_bind in Hrun. rewrite Hcs in Hrun.
  injection Hrun as <- _.
  split; [|split; [|split]].
  - apply attach_contents_fmap. by intros [[|??]|] r.
  - apply attach_contents_fmap. by intros [[|??]|] r.
  - apply attach_contents_fmap. by intros [[|??]|] r.
  - apply Forall_lookup. intros j r. rewrite attach_contents_lookup.
    pose proof (search_duckduckgo_no_content _ _ _ _ _ Hsearch) as Hnone.
    destruct (if decide (0 <= j) then contents !! (j - 0) else None)
      as [[[|ch cs]|]|];
      destruct (found !! j) as [r0|] eqn:Hj; simpl; intros [= <-];
      try (left; by eapply (Forall_lookup_1 _ _ _ _ Hnone Hj)).
    right. by exists ch, cs.
Qed.

Lemma length_lit (s : string) : length (lit s) = String.length s.
Proof.
  unfold lit. rewrite length_map.
  induction s as [|c s IH]; simpl; [done|]. by rewrite IH.
Qed.

Lemma result_entry_length r :
  length (result_entry r)
  <= length (title r) + length (url r) + length (snippet r) + 2046.
Proof.
  unfold result_entry, nl.
  assert (Hcontent :
    length (match content r with
            | Some (ch :: cs) =>
                lit "  Content: " ++ take 2000 (ch :: cs) ++ lit "..." ++ [10%N]
            | Some [] | None => []
            end) <= 2015).
  { destruct (content r) as [[|ch cs]|]; [simpl; lia| |simpl; lia].
    rewrite !length_app, !length_lit, length_take.
    pose proof (Nat.le_min_l 2000 (length (ch :: cs))) as Hcut.
    revert Hcut. generalize (2000 `min` length (ch :: cs)). intros m Hm.
    simpl. lia. }
  rewrite !length_app, !length_lit.
  match type of Hcontent with ?n <= _ => generalize dependent n end.
  intros n Hn. simpl. lia.
Qed.

(** X16.  The extraction prompt stays small whatever the pages hold: each
    result adds its title, url and snippet and at most 2046 further
    characters (labels, and at most 2000 characters of content). *)
Theorem angle_prompt_length plan angle results :
  length (angle_prompt plan angle results)
  <= 33 + length (topic plan) + length angle
     + sum_list ((fun r => length (title r) + length (url r)
                           + length (snippet r) + 2046) <$> results).
Proof.
  unfold angle_prompt, nl.
  assert (Hentries :
    length (concat (result_entry <$> results))
    <= sum_list ((fun r => length (title r) + length (url r)
                           + length (snippet r) + 2046) <$> results)).
  { induction results as [|r results IH]; [simpl; lia|].
    rewrite !fmap_cons. pose proof (result_entry_length r) as Hr.
    change (concat (result_entry r :: (result_entry <$> results)))
      with (result_entry r ++ concat (result_entry <$> results)).
    rewrite length_app. cbn [sum_list sum_list_with id].
    revert Hr IH. generalize (length (result_entry r)).
    generalize (length (concat (result_entry <$> results))).
    intros n m Hm Hn. lia. }
  rewrite !length_app, !length_lit.
  revert Hentries. generalize (length (concat (result_entry <$> results))).
  generalize (sum_list ((fun r => length (title r) + length (url r)
                            + length (snippet r) + 2046) <$> results)).
  intros total n Hn. simpl. lia.
Qed.

End AngleMore.

Section RunMore.
Context `{!PyRuntime, !Services}.

(** ** Counting calls *)

Lemma count_events_app kind tr1 tr2 :
  count_events kind (tr1 ++ tr2) = count_events kind tr1 + count_events kind tr2.
Proof. unfold count_events. by rewrite List.filter_app, length_app. Qed.

Lemma count_events_fetches kind (b : bool) (rs : list ResearchResult) :
  (forall u, kind (EvFetch u) = b) ->
  count_events kind (EvFetch ∘ url <$> rs) = if b then length rs else 0.
Proof.
  intros Hkind. unfold count_events.
  induction rs as [|r rs IH]; [by destruct b|].
  rewrite fmap_cons. cbn [List.filter].
  change ((EvFetch ∘ url) r) with (EvFetch (url r)).
  rewrite Hkind. destruct b; cbn [length]; by rewrite IH.
Qed.

Lemma angle_calls_counts plan angle tr calls :
  angle_calls plan angle tr calls ->
  count_events is_search calls = 1 /\
  count_events is_extract calls = 1 /\
  count_events is_fetch calls <= 2 /\
  count_events is_plan calls = 0 /\
  count_events is_synth calls = 0.
Proof.
  intros (found & results & _ & _ & ->).
  change (EvSearch ?q 5 :: ?l) with ([EvSearch q 5] ++ l).
  rewrite !count_events_app.
  rewrite (count_events_fetches is_search false), (count_events_fetches is_extract false),
    (count_events_fetches is_fetch true), (count_events_fetches is_plan false),
    (count_events_fetches is_synth false) by done.
  rewrite length_take. pose proof (Nat.le_min_l 2 (length found)) as Hcut.
  revert Hcut. generalize (2 `min` length found). intros m Hm.
  unfold count_events. simpl. lia.
Qed.

(** ** The fan-out, call by call *)

Lemma gather_angles_run plan (l : list str) tr :
  exists angle_data_list segments,
    gather (process_angle plan <$> l) tr
    = (Ok angle_data_list, tr ++ concat segments) /\
    length angle_data_list = length l /\
    Forall2 (fun a calls => exists tr_a, angle_calls plan a tr_a calls) l segments.
Proof.
  revert tr. induction l as [|a l IH]; intros tr.
  - exists [], []. simpl. rewrite app_nil_r. repeat split. constructor.
  - destruct (process_angle_run plan a tr) as (data & calls & Hrun & Hcalls).
    destruct (IH (tr ++ calls)) as (ds & segments & Hgather & Hlen & Hall).
    exists (data :: ds), (calls :: segments). split; [|split].
    + rewrite fmap_cons, gather_cons, Hrun, Hgather. simpl.
      by rewrite <- app_assoc.
    + simpl. by rewrite Hlen.
    + constructor; [by exists tr|done].
Qed.

Lemma synthesis_returns prompt tr :
  exists response,
    try_except (synthesize prompt)
      (fun e => mret (lit "Error synthesizing report: " ++ exn_str e)) tr
    = (Ok response, tr ++ [EvSynth prompt]).
Proof.
  unfold try_except, synthesize, mbind, M_bind, call, lift, mret, M_ret.
  destruct (synthesis_agent_run tr prompt) as [report_run|e]; [|by eexists].
  destruct (get_agent_output report_run); by eexists.
Qed.

(** The run after a plan was made: the tasks of the angles one after the
    other, then the synthesis. *)
Lemma deep_research_planned_run user_input tr0 plan tr :
  make_plan user_input tr0 = (Ok plan, tr) ->
  exists angle_data_list segments response,
    deep_research user_input tr0
    = (Ok response,
       tr ++ concat segments ++ [EvSynth (report_prompt plan angle_data_list)]) /\
    length angle_data_list = length (angles plan) /\
    Forall2 (fun a calls => exists tr_a, angle_calls plan a tr_a calls)
      (angles plan) segments.
Proof.
  intros Hplan. rewrite (deep_research_planned _ _ _ _ Hplan).
  destruct (gather_angles_run plan (angles plan) tr)
    as (ds & segments & Hgather & Hlen & Hall).
  destruct (synthesis_returns (report_prompt plan ds) (tr ++ concat segments))
    as (response & Hsynth).
  exists ds, segments, response. split; [|done].
  unfold research_and_report, mbind, M_bind at 1.
  by rewrite Hgather, Hsynth, <- app_assoc.
Qed.

Lemma segments_counts plan (l : list str) segments kind n :
  Forall2 (fun a calls => exists tr_a, angle_calls plan a tr_a calls) l segments ->
  (forall a tr_a calls, angle_calls plan a tr_a calls ->
     count_events kind calls <= n) ->
  count_events kind (concat segments) <= n * length l.
Proof.
  intros Hall Hkind. induction Hall as [|a calls l segments [tr_a Ha] Hall IH]; simpl.
  - unfold count_events. simpl. lia.
  - rewrite count_events_app. pose proof (Hkind _ _ _ Ha). lia.
Qed.

Lemma segments_counts_exact plan (l : list str) segments kind n :
  Forall2 (fun a calls => exists tr_a, angle_calls plan a tr_a calls) l segments ->
  (forall a tr_a calls, angle_calls plan a tr_a calls ->
     count_events kind calls = n) ->
  count_events kind (concat segments) = n * length l.
Proof.
  intros Hall Hkind. induction Hall as [|a calls l segments [tr_a Ha] Hall IH]; simpl.
  - unfold count_events. simpl. lia.
  - rewrite count_events_app, (Hkind _ _ _ Ha). lia.
Qed.

(** X17.  [deep_research] never raises: it always returns a string, and
    the string is the planning error text, the synthesis error text, or
    the [markdown_content] of what the synthesis agent returned. *)
Theorem deep_research_response user_input tr0 :
  exists response tr',
    deep_research user_input tr0 = (Ok response, tr') /\
    ((exists e, (make_plan user_input tr0).1 = Raise e /\
                response = lit "Error generating plan: " ++ exn_str e) \/
     (exists e, response = lit "Error synthesizing report: " ++ exn_str e) \/
     (exists tr prompt report_run report,
        synthesis_agent_run tr prompt = Ok report_run /\
        get_agent_output report_run = Ok report /\
        response = markdown_content report)).
Proof.
  unfold deep_research.
  destruct (make_plan user_input tr0) as [[plan|e] tr] eqn:Hplan.
  2: { eexists _, _. split; [done|]. left. by exists e. }
  destruct (gather_angles_run plan (angles plan) tr)
    as (ds & segments & Hgather & _).
  unfold research_and_report, mbind, M_bind at 1. rewrite Hgather.
  unfold try_except, synthesize, mbind, M_bind, call, lift, mret, M_ret.
  destruct (synthesis_agent_run _ _) as [report_run|e] eqn:Hrun.
  2: { eexists _, _. split; [done|]. right. left. by exists e. }
  destruct (get_agent_output report_run) as [report|e] eqn:Hout.
  2: { eexists _, _. split; [done|]. right. left. by exists e. }
  eexists _, _. split; [done|]. right. right. by eexists _, _, _, _.
Qed.

(** X18.  A run whose plan was made consists of the planner call, then for
    every planned angle exactly one search and one extraction call and at
    most two fetches, then exactly one synthesis call, which comes last. *)
Theorem deep_research_call_counts user_input tr0 plan tr :
  make_plan user_input tr0 = (Ok plan, tr) ->
  exists calls prompt,
    (deep_research user_input tr0).2
    = tr0 ++ [EvPlan user_input] ++ calls ++ [EvSynth prompt] /\
    count_events is_search calls = length (angles plan) /\
    count_events is_extract calls = length (angles plan) /\
    count_events is_fetch calls <= 2 * length (angles plan) /\
    count_events is_plan calls = 0 /\
    count_events is_synth calls = 0.
Proof.
  intros Hplan.
  destruct (deep_research_planned_run _ _ _ _ Hplan)
    as (ds & segments & response & Hrun & _ & Hall).
  pose proof (make_plan_trace user_input tr0) as Htr. rewrite Hplan in Htr.
  simpl in Htr. subst tr.
  exists (concat segments), (report_prompt plan ds). rewrite Hrun. simpl.
  split; [by rewrite <- app_assoc|].
  split; [|split; [|split; [|split]]].
  - rewrite (segments_counts_exact _ _ _ is_search 1 Hall); [lia|].
    intros a tr_a calls Ha. by apply angle_calls_counts in Ha as (? & _).
  - rewrite (segments_counts_exact _ _ _ is_extract 1 Hall); [lia|].
    intros a tr_a calls Ha. by apply angle_calls_counts in Ha as (_ & ? & _).
  - apply (segments_counts _ _ _ is_fetch 2 Hall).
    intros a tr_a calls Ha. by apply angle_calls_counts in Ha as (_ & _ & ? & _).
  - rewrite (segments_counts_exact _ _ _ is_plan 0 Hall); [lia|].
    intros a tr_a calls Ha. by apply angle_calls_counts in Ha as (_ & _ & _ & ? & _).
  - rewrite (segments_counts_exact _ _ _ is_synth 0 Hall); [lia|].
    intros a tr_a calls Ha. by apply angle_calls_counts in Ha as (_ & _ & _ & _ & ?).
Qed.

Lemma segments_member plan (l : list str) segments a :
  Forall2 (fun a calls => exists tr_a, angle_calls plan a tr_a calls) l segments ->
  a ∈ l ->
  exists calls tr_a,
    angle_calls plan a tr_a calls /\ forall ev, ev ∈ calls -> ev ∈ concat segments.
Proof.
  intros Hall. induction Hall as [|b calls l segments [tr_b Hb] Hall IH].
  - by intros ?%elem_of_nil.
  - intros [->|Hin]%elem_of_cons.
    + exists calls, tr_b. split; [done|]. intros ev Hev. simpl.
      apply elem_of_app. by left.
    + destruct (IH Hin) as (calls' & tr_a & Ha & Hsub).
      exists calls', tr_a. split; [done|]. intros ev Hev. simpl.
      apply elem_of_app. right. by apply Hsub.
Qed.

(** X19.  Every angle of the plan is researched: the run holds a search
    with the query "topic angle", and an extraction call whose prompt is
    built for that angle. *)
Theorem every_angle_researched user_input tr0 plan tr a :
  make_plan user_input tr0 = (Ok plan, tr) ->
  a ∈ angles plan ->
  EvSearch (topic plan ++ lit " " ++ a) 5 ∈ (deep_research user_input tr0).2 /\
  exists results,
    EvExtract (angle_prompt plan a results) ∈ (deep_research user_input tr0).2.
Proof.
  intros Hplan Hin.
  destruct (deep_research_planned_run _ _ _ _ Hplan)
    as (ds & segments & response & Hrun & _ & Hall).
  destruct (segments_member _ _ _ _ Hall Hin)
    as (calls & tr_a & (found & results & _ & _ & ->) & Hsub).
  rewrite Hrun. simpl. split; [|exists results].
  - apply elem_of_app. right. apply elem_of_app. left. apply Hsub. left.
  - apply elem_of_app. right. apply elem_of_app. left. apply Hsub.
    right. apply elem_of_app. right. left.
Qed.

Lemma ensure_swot_topic plan :
  topic (ensure_swot_angle_if_applicable plan) = topic plan.
Proof.
  unfold ensure_swot_angle_if_applicable.
  destruct (needs_swot plan); cbn [negb]; [|done].
  destruct (existsb mentions_swot (angles plan)); cbn [negb]; [done|].
  by destruct (4 <=? length (angles plan)).
Qed.

Lemma make_plan_run user_input tr0 plan_run raw :
  planning_agent_run tr0 user_input = Ok plan_run ->
  get_agent_output plan_run = Ok raw ->
  make_plan user_input tr0
  = (Ok (ensure_swot_angle_if_applicable raw), tr0 ++ [EvPlan user_input]).
Proof.
  intros Hrun Hout.
  unfold make_plan, mbind, M_bind, call, lift, mret, M_ret.
  by rewrite Hrun, Hout.
Qed.

(** X20.  From the planner to the web: when the plan the planner returns
    is for a ticker, or its topic and context hold a financial keyword,
    the run searches for an angle that mentions SWOT. *)
Theorem swot_angle_researched user_input tr0 plan_run raw :
  planning_agent_run tr0 user_input = Ok plan_run ->
  get_agent_output plan_run = Ok raw ->
  needs_swot raw = true ->
  exists a,
    mentions_swot a = true /\
    EvSearch (topic raw ++ lit " " ++ a) 5 ∈ (deep_research user_input tr0).2.
Proof.
  intros Hrun Hout Hneeds.
  pose proof (make_plan_run _ _ _ _ Hrun Hout) as Hplan.
  pose proof (ensure_swot_mentions raw Hneeds) as Hany.
  apply existsb_exists in Hany as (a & Hin%list_elem_of_In & Ha).
  exists a. split; [done|].
  destruct (deep_research_planned_run _ _ _ _ Hplan)
    as (ds & segments & response & Hdeep & _ & Hall).
  destruct (segments_member _ _ _ _ Hall Hin)
    as (calls & tr_a & (found & results & _ & _ & ->) & Hsub).
  rewrite Hdeep. simpl. rewrite ensure_swot_topic in Hsub.
  apply elem_of_app. right. apply elem_of_app. left. apply Hsub. left.
Qed.


End RunMore.

(** * The further properties at work on sample data *)

(** A company in capitals, not a ticker. *)
Definition acme_plan : ResearchPlan :=
  {| is_ticker := false;
     topic := lit "ACME Corp";
     context := lit "Listed COMPANY in retail";
     angles := [lit "history"; lit "stores"; lit "outlook"] |}.

(** A ticker plan whose SWOT angle is written in lower case. *)
Definition lower_swot_plan : ResearchPlan :=
  {| is_ticker := true;
     topic := lit "Tesla";
     context := lit "Electric vehicles";
     angles := [lit "recent performance"; lit "a swot overview";
                lit "guidance"; lit "robotaxi"] |}.

(** A run result of an older shape: [output] raises, [data] has the value. *)
Definition legacy_result {A} (value : A) : AgentRunResult A :=
  {| type_name := lit "RunResult";
     getattr := fun attr =>
       if String.eqb attr "data" then Ok (Some value)
       else Raise (Exception "AttributeError" (lit "no such attribute"));
     vars := Ok [("data"%string, Some value)] |}.

(** A run result that keeps its value in a private slot only. *)
Definition private_result {A} (value : A) : AgentRunResult A :=
  {| type_name := lit "AgentRunResult";
     getattr := fun attr =>
       if String.eqb attr "result" then Ok None
       else Raise (Exception "AttributeError" (lit "no such attribute"));
     vars := Ok [("_data"%string, None); ("_output"%string, Some value)] |}.

(** A run result with nothing to find. *)
Definition shapeless_result : AgentRunResult nat :=
  {| type_name := lit "Thing";
     getattr := fun _ => Ok None;
     vars := Ok [("x"%string, Some 1); ("output"%string, None)] |}.

(** What the sample search finds, and what is left after the fetches of
    the sample world: the first page is attached, the second is a 404. *)
Definition sample_found : list ResearchResult := result_of_hit <$> sample_hits.
Definition sample_results : list ResearchResult :=
  attach_contents 0 [Some (lit "Revenue grew by 12%"); None] sample_found.

Section MoreSamples.
#[local] Existing Instance ascii_runtime.

Ltac ascii_run := repeat constructor.

Ltac well_typed :=
  let Hkey := fresh "Hkey" in
  intros ? ? Hkey;
  repeat (apply elem_of_cons in Hkey as [->|Hkey]; [by vm_compute|]);
  by apply elem_of_nil in Hkey.

Lemma keyword_in_any_case_triggers_witness :
  needs_swot acme_plan = true /\
  existsb mentions_swot (angles (ensure_swot_angle_if_applicable acme_plan)) = true.
Proof.
  apply (keyword_in_any_case_triggers acme_plan (lit "company") (lit "COMPANY")
           (lit "ACME Corp Listed ") (lit " in retail")).
  - ascii_run.
  - ascii_run.
  - reflexivity.
  - reflexivity.
Defined.

Lemma existing_swot_angle_kept_witness :
  ensure_swot_angle_if_applicable lower_swot_plan = lower_swot_plan.
Proof.
  apply (existing_swot_angle_kept lower_swot_plan (lit "a swot overview")
           (lit "swot") (lit "a ") (lit " overview")).
  - right. left.
  - ascii_run.
  - reflexivity.
  - reflexivity.
Defined.

Lemma get_agent_output_sound_witness :
  (exists attr, attr ∈ public_attrs /\
                getattr (private_result 7) attr = Ok (Some 7)) \/
  (exists data key, vars (private_result 7) = Ok data /\ key ∈ dict_keys /\
                    dict_get data key = Some (Some 7)).
Proof. apply get_agent_output_sound. reflexivity. Defined.

(** The error text of a result with nothing to find. *)
Example shapeless_result_raises :
  get_agent_output shapeless_result
  = Raise (Exception "AttributeError"
             (lit "Unsupported AgentRunResult shape: Thing; available keys=['x', 'output']")).
Proof. reflexivity. Qed.

Lemma get_agent_output_attribute_order_witness :
  get_agent_output (legacy_result 7) = Ok 7.
Proof.
  apply (get_agent_output_attribute_order (legacy_result 7)
           ["output"%string] "data"%string ["result"%string]).
  - reflexivity.
  - intros a w ->%list_elem_of_singleton. discriminate.
  - reflexivity.
Defined.

Lemma get_agent_output_dict_fallback_witness :
  get_agent_output (private_result 7) = Ok 7.
Proof.
  apply (get_agent_output_dict_fallback (private_result 7)
           [("_data"%string, None); ("_output"%string, Some 7)]
           ["output"%string; "data"%string] "_output"%string
           ["_data"%string; "result"%string; "_result"%string]).
  - intros a w Ha.
    repeat (apply elem_of_cons in Ha as [->|Ha]; [discriminate|]).
    by apply elem_of_nil in Ha.
  - reflexivity.
  - reflexivity.
  - intros k w Hk.
    repeat (apply elem_of_cons in Hk as [->|Hk]; [discriminate|]).
    by apply elem_of_nil in Hk.
  - reflexivity.
Defined.

Lemma search_results_follow_hits_witness :
  @search_duckduckgo (services_with_hits (take 1 mixed_hits))
    (lit "Volkswagen guidance") 5 []
  = (Ok [ {| title := []; url := lit "https://example.com/untitled";
             snippet := lit "No title here"; content := None |} ],
     [EvSearch (lit "Volkswagen guidance") 5]).
Proof.
  apply (@search_results_follow_hits (services_with_hits (take 1 mixed_hits))
           (lit "Volkswagen guidance") 5 [] (take 1 mixed_hits)).
  - reflexivity.
  - constructor; [well_typed | constructor].
Defined.

Lemma search_stops_at_bad_hit_witness :
  @search_duckduckgo (services_with_hits mixed_hits)
    (lit "Volkswagen guidance") 5 []
  = (Ok [ {| title := []; url := lit "https://example.com/untitled";
             snippet := lit "No title here"; content := None |} ],
     [EvSearch (lit "Volkswagen guidance") 5]).
Proof.
  apply (@search_stops_at_bad_hit (services_with_hits mixed_hits)
           (lit "Volkswagen guidance") 5 [] (take 1 mixed_hits)
           {[ "title"%string := PyStr (lit "Broken");
              "href"%string := PyStr (lit "https://example.com/broken");
              "body"%string := PyOther (lit "Input should be a valid string") ]}
           (drop 2 mixed_hits)).
  - reflexivity.
  - constructor; [well_typed | constructor].
  - intros Hbad.
    apply (Hbad "body"%string (lit "Input should be a valid string")).
    + right. right. left.
    + reflexivity.
Defined.

Lemma fetch_success_witness :
  @fetch_page_content all_up (lit "https://example.com/report") []
  = (Ok (Some (lit "Revenue grew by 12%")),
     [EvFetch (lit "https://example.com/report")]).
Proof.
  apply (@fetch_success all_up (lit "https://example.com/report") []
           {| status_code := 200; text := lit "Revenue grew by 12%";
              status_error := [] |} (lit "Revenue grew by 12%")).
  - reflexivity.
  - simpl. lia.
  - reflexivity.
  - vm_compute. lia.
Defined.

Lemma process_angle_without_search_witness :
  exists data,
    @process_angle search_down four_angle_plan (lit "guidance") []
    = (Ok data,
       [EvSearch (lit "Volkswagen guidance") 5;
        EvExtract (angle_prompt_header four_angle_plan (lit "guidance"))]).
Proof.
  apply (@process_angle_without_search search_down four_angle_plan
           (lit "guidance") []
           (Exception "RatelimitException" (lit "202 Ratelimit"))).
  reflexivity.
Defined.

Lemma research_angle_keeps_fields_witness :
  title <$> sample_results = title <$> sample_found /\
  url <$> sample_results = url <$> sample_found /\
  snippet <$> sample_results = snippet <$> sample_found /\
  Forall (fun r => content r = None \/
                   exists ch cs, content r = Some (ch :: cs)) sample_results.
Proof.
  apply (@research_angle_keeps_fields all_up four_angle_plan (lit "guidance") []
           sample_found [EvSearch (lit "Volkswagen guidance") 5]
           sample_results
           [EvSearch (lit "Volkswagen guidance") 5;
            EvFetch (lit "https://example.com/report");
            EvFetch (lit "https://example.com/gone")]).
  - vm_compute. reflexivity.
  - vm_compute. reflexivity.
Defined.

Lemma deep_research_call_counts_witness :
  exists calls prompt,
    (@deep_research ascii_runtime all_up (lit "VLKAF") []).2
    = [] ++ [EvPlan (lit "VLKAF")] ++ calls ++ [EvSynth prompt] /\
    count_events is_search calls = 4 /\
    count_events is_extract calls = 4 /\
    count_events is_fetch calls <= 8 /\
    count_events is_plan calls = 0 /\
    count_events is_synth calls = 0.
Proof.
  apply (@deep_research_call_counts ascii_runtime all_up (lit "VLKAF") []
           (ensure_swot_angle_if_applicable four_angle_plan)
           [EvPlan (lit "VLKAF")]).
  reflexivity.
Defined.

Lemma every_angle_researched_witness :
  EvSearch (lit "Volkswagen" ++ lit " " ++ lit "SWOT analysis") 5
    ∈ (@deep_research ascii_runtime all_up (lit "VLKAF") []).2 /\
  exists results,
    EvExtract (angle_prompt (ensure_swot_angle_if_applicable four_angle_plan)
                 (lit "SWOT analysis") results)
      ∈ (@deep_research ascii_runtime all_up (lit "VLKAF") []).2.
Proof.
  apply (@every_angle_researched ascii_runtime all_up (lit "VLKAF") []
           (ensure_swot_angle_if_applicable four_angle_plan)
           [EvPlan (lit "VLKAF")] (lit "SWOT analysis")).
  - reflexivity.
  - right. right. right. left.
Defined.

Lemma swot_angle_researched_witness :
  exists a,
    mentions_swot a = true /\
    EvSearch (lit "Volkswagen" ++ lit " " ++ a) 5
      ∈ (@deep_research ascii_runtime all_up (lit "VLKAF") []).2.
Proof.
  apply (@swot_angle_researched ascii_runtime all_up (lit "VLKAF") []
           (run_result_of four_angle_plan) four_angle_plan).
  - reflexivity.
  - reflexivity.
  - reflexivity.
Defined.


End MoreSamples.
